(** * NowPaymentsAPI: a shallow embedding of [now_payments.py]

    The module is a thin client for the NOWPayments REST API.  Every
    operation of class [NowPaymentsAPI] is embedded as a computation in a
    small state-and-exception monad:

    - the Python values that travel through the code (JSON documents,
      request payloads, callback dictionaries) are the type [pyval];
    - the interpreter state the code can touch (the client object, the
      class attribute [BASE_URL], the log written by [logger.error], the
      calls handed to [requests]) is the record [PyState];
    - the outside world (the remote service seen through [requests], the
      clock read by [datetime.now()]) is the record [World].

    Python strings are modelled as Rocq strings, one character per code
    point below 256. *)

From Stdlib Require Import ZArith List Bool Lia.
From Stdlib Require Import Ascii String.
From Stdlib Require Import DecimalString.
From Stdlib Require Import SpecFloat.
Import ListNotations.

Local Open Scope string_scope.
Local Open Scope Z_scope.

Set Warnings "-register-all".

(** ** Python values *)

(** [float] is IEEE-754 binary64; [int] is unbounded.  A dictionary keeps
    its insertion order (it shows in [str] and in the JSON body), so it is
    an association list; lookup takes the first binding of a key. *)
Inductive pyval : Type :=
| PNone
| PBool (b : bool)
| PInt (n : Z)
| PFloat (f : spec_float)
| PStr (s : string)
| PList (l : list pyval)
| PDict (d : list (string * pyval)).

Definition pydict : Type := list (string * pyval).

(** [d.get(key, default)] *)
Fixpoint dict_get_default (d : pydict) (key : string) (default : pyval) : pyval :=
  match d with
  | [] => default
  | (k, v) :: d' => if String.eqb k key then v else dict_get_default d' key default
  end.

(** [d.get(key)] *)
Definition dict_get (d : pydict) (key : string) : pyval :=
  dict_get_default d key PNone.

(** [key in d] *)
Fixpoint dict_mem (d : pydict) (key : string) : bool :=
  match d with
  | [] => false
  | (k, _) :: d' => String.eqb k key || dict_mem d' key
  end.

(** Truth value of an object, as tested by [not x] and [if x]. *)
Definition truthy (v : pyval) : bool :=
  match v with
  | PNone => false
  | PBool b => b
  | PInt n => negb (n =? 0)
  | PFloat (S754_zero _) => false
  | PFloat _ => true
  | PStr s => negb (String.eqb s "")
  | PList l => match l with [] => false | _ => true end
  | PDict d => match d with [] => false | _ => true end
  end.

(** [v == s] for a string literal [s]: only an equal [str] compares equal. *)
Definition eq_str (v : pyval) (s : string) : bool :=
  match v with
  | PStr t => String.eqb t s
  | _ => false
  end.

(** [type(v).__name__] *)
Definition type_name (v : pyval) : string :=
  match v with
  | PNone => "NoneType"
  | PBool _ => "bool"
  | PInt _ => "int"
  | PFloat _ => "float"
  | PStr _ => "str"
  | PList _ => "list"
  | PDict _ => "dict"
  end.

(** ** Exceptions *)

(** The classes the module can meet.  The first six are subclasses of
    [requests.exceptions.RequestException]; [OtherException] stands for any
    other subclass of [Exception] by name. *)
Inductive exn_class : Type :=
| HTTPError
| ConnectionError
| Timeout
| TooManyRedirects
| JSONDecodeError
| OtherRequestException
| ValueError
| IndexError
| AttributeError
| TypeError
| OverflowError
| OtherException (name : string).

Record exn : Type := Exn { exn_cls : exn_class; exn_msg : string }.

(** [isinstance(e, requests.exceptions.RequestException)] *)
Definition is_RequestException (e : exn) : bool :=
  match exn_cls e with
  | HTTPError | ConnectionError | Timeout | TooManyRedirects
  | JSONDecodeError | OtherRequestException => true
  | _ => false
  end.

(** [isinstance(e, Exception)] *)
Definition is_Exception (e : exn) : bool := true.

(** [str(e)] *)
Definition exn_str (e : exn) : string := exn_msg e.

(** The result of evaluating an expression: a value or a raised exception. *)
Inductive result (A : Type) : Type :=
| Ret (a : A)
| Raise (e : exn).
Arguments Ret {A} a.
Arguments Raise {A} e.

(** ** Strings *)

Definition underscore : ascii := "_"%char.

(** [s.split(sep)] for a one-character separator: never empty, and the
    empty string splits into one empty token. *)
Fixpoint split (sep : ascii) (s : string) : list string :=
  match s with
  | EmptyString => [EmptyString]
  | String c s' =>
      if Ascii.eqb c sep then EmptyString :: split sep s'
      else match split sep s' with
           | [] => [String c EmptyString]
           | tok :: rest => String c tok :: rest
           end
  end.

(** [c in s] *)
Fixpoint contains (c : ascii) (s : string) : bool :=
  match s with
  | EmptyString => false
  | String a s' => Ascii.eqb a c || contains c s'
  end.

(** [l[i]] on a list, for [i >= 0]. *)
Definition list_index {A : Type} (l : list A) (i : nat) : result A :=
  match nth_error l i with
  | Some a => Ret a
  | None => Raise (Exn IndexError "list index out of range")
  end.

(** The decimal numeral of an integer. *)
Definition decimal (n : Z) : string := NilZero.string_of_int (Z.to_int n).

(** [sys.get_int_max_str_digits()], at its default. *)
Definition int_max_str_digits : Z := 4300.

Definition int_limit_error : exn :=
  Exn ValueError
    "Exceeds the limit (4300 digits) for integer string conversion; use sys.set_int_max_str_digits() to increase the limit".

(** [str(n)] for an [int]: its decimal numeral, unless that has more
    digits (the sign apart) than the limit, and then a [ValueError]. *)
Definition int_str (n : Z) : result string :=
  if Z.of_nat (String.length (decimal (Z.abs n))) <=? int_max_str_digits
  then Ret (decimal n)
  else Raise int_limit_error.

(** [f] over a list, left to right, up to the first exception. *)
Definition map_result {A B : Type} (f : A -> result B)
  : list A -> result (list B) :=
  fix go (l : list A) : result (list B) :=
    match l with
    | [] => Ret []
    | x :: l' =>
        match f x with
        | Ret y =>
            match go l' with
            | Ret ys => Ret (y :: ys)
            | Raise e => Raise e
            end
        | Raise e => Raise e
        end
    end.

(** ** Floating-point numbers: [float(x)] and [repr(x)] *)

Module PyFloat.

(** binary64 *)
Definition prec : Z := 53.
Definition emax : Z := 1024.

(** The double nearest to [m * 2^e] (ties to even), signed by [neg]. *)
Definition round_binary (neg : bool) (m : positive) (e : Z) : spec_float :=
  binary_round prec emax neg m e.

(** The double nearest to [m * 10^e10] (ties to even), signed by [neg]:
    an exact integer when [e10 >= 0], a correctly rounded quotient of two
    exact integers otherwise. *)
Definition of_decimal (neg : bool) (m : Z) (e10 : Z) : spec_float :=
  match m with
  | Zpos p =>
      if 0 <=? e10 then
        match Zpos p * 10 ^ e10 with
        | Zpos q => round_binary neg q 0
        | _ => S754_zero neg
        end
      else
        let '(q, e, l) :=
          SFdiv_core_binary prec emax (Zpos p) 0 (10 ^ (- e10)) 0 in
        binary_round_aux prec emax neg q e l
  | _ => S754_zero neg
  end.

(** [float(n)] for an [int]: the nearest double, or [OverflowError]. *)
Definition of_int (n : Z) : result spec_float :=
  match binary_normalize prec emax n 0 false with
  | S754_infinity _ => Raise (Exn OverflowError "int too large to convert to float")
  | f => Ret f
  end.

(** *** Reading a string *)

Definition is_digit (c : ascii) : bool :=
  let n := Z.of_nat (nat_of_ascii c) in (48 <=? n) && (n <=? 57).

Definition digit_val (c : ascii) : Z := Z.of_nat (nat_of_ascii c) - 48.

(** The blanks [float] strips from both ends of its argument: the ASCII
    ones, and NEL and NBSP among the code points below 256. *)
Definition is_space (c : ascii) : bool :=
  let n := Z.of_nat (nat_of_ascii c) in
  ((9 <=? n) && (n <=? 13)) || (n =? 32) || (n =? 133) || (n =? 160).

Fixpoint lstrip (s : list ascii) : list ascii :=
  match s with
  | c :: s' => if is_space c then lstrip s' else s
  | [] => []
  end.

Definition strip (s : list ascii) : list ascii :=
  rev (lstrip (rev (lstrip s))).

(** Underscores are dropped when each stands between two digits; any
    other underscore makes the literal invalid. *)
Fixpoint drop_underscores (prev : option ascii) (s : list ascii)
  : option (list ascii) :=
  match s with
  | [] =>
      match prev with
      | Some p => if Ascii.eqb p underscore then None else Some []
      | None => Some []
      end
  | c :: s' =>
      if Ascii.eqb c underscore then
        match prev with
        | Some p => if is_digit p then drop_underscores (Some c) s' else None
        | None => None
        end
      else
        let ok :=
          match prev with
          | Some p => if Ascii.eqb p underscore then is_digit c else true
          | None => true
          end in
        if ok then option_map (cons c) (drop_underscores (Some c) s')
        else None
  end.

Fixpoint take_digits (s : list ascii) : list ascii * list ascii :=
  match s with
  | c :: s' =>
      if is_digit c then let '(ds, r) := take_digits s' in (c :: ds, r)
      else ([], s)
  | [] => ([], [])
  end.

Definition digits_val (ds : list ascii) : Z :=
  fold_left (fun acc c => 10 * acc + digit_val c) ds 0.

Definition lower (c : ascii) : ascii :=
  let n := nat_of_ascii c in
  if (65 <=? Z.of_nat n) && (Z.of_nat n <=? 90)
  then ascii_of_nat (n + 32) else c.

Definition take_sign (s : list ascii) : bool * list ascii :=
  match s with
  | "-"%char :: s' => (true, s')
  | "+"%char :: s' => (false, s')
  | _ => (false, s)
  end.

(** The exponent part: empty, or [e]/[E], an optional sign and at least
    one digit, up to the end of the text. *)
Definition parse_exponent (s : list ascii) : option Z :=
  match s with
  | [] => Some 0
  | c :: s' =>
      if Ascii.eqb (lower c) "e"%char then
        let '(neg, s'') := take_sign s' in
        match take_digits s'' with
        | (d :: ds, []) =>
            Some (if neg then - digits_val (d :: ds) else digits_val (d :: ds))
        | _ => None
        end
      else None
  end.

(** An optional sign, then [inf], [infinity], [nan] in any case, or a
    decimal literal with at least one digit around an optional point and
    an optional exponent. *)
Definition parse_literal (s : list ascii) : option spec_float :=
  let '(neg, body) := take_sign s in
  let word := string_of_list_ascii (map lower body) in
  if String.eqb word "inf" || String.eqb word "infinity"
  then Some (S754_infinity neg)
  else if String.eqb word "nan" then Some S754_nan
  else
    let '(ip, r1) := take_digits body in
    let '(fp, r2) :=
      match r1 with
      | "."%char :: r => take_digits r
      | _ => ([], r1)
      end in
    match (ip ++ fp)%list with
    | [] => None
    | ds =>
        match parse_exponent r2 with
        | Some ex =>
            Some (of_decimal neg (digits_val ds) (ex - Z.of_nat (List.length fp)))
        | None => None
        end
    end.

(** The number a string denotes for [float(s)], if it denotes one. *)
Definition parse (s : string) : option spec_float :=
  match drop_underscores None (strip (list_ascii_of_string s)) with
  | Some body => parse_literal body
  | None => None
  end.

(** *** Writing a float *)

(** [repr(x)] is the shortest decimal text that reads back as [x], the
    nearest to [x] where several do; it is laid out in positional
    notation unless the decimal point falls outside [-4 < decpt <= 16]. *)

Definition sf_eqb (a b : spec_float) : bool :=
  match a, b with
  | S754_finite s m e, S754_finite s' m' e' =>
      Bool.eqb s s' && Pos.eqb m m' && Z.eqb e e'
  | S754_zero s, S754_zero s' => Bool.eqb s s'
  | S754_infinity s, S754_infinity s' => Bool.eqb s s'
  | S754_nan, S754_nan => true
  | _, _ => false
  end.

(** [10^k <= m * 2^e] *)
Definition pow10_le (k : Z) (m : positive) (e : Z) : bool :=
  10 ^ Z.max k 0 * 2 ^ Z.max (- e) 0
  <=? Zpos m * 2 ^ Z.max e 0 * 10 ^ Z.max (- k) 0.

(** The [k] with [10^(k-1) <= m * 2^e < 10^k]. *)
Definition decimal_point (m : positive) (e : Z) : Z :=
  let k0 := (Zpos (digits2_pos m) + e) * 30103 / 100000 in
  if negb (pow10_le (k0 - 1) m e) then k0 - 1
  else if negb (pow10_le k0 m e) then k0
  else if negb (pow10_le (k0 + 1) m e) then k0 + 1
  else k0 + 2.

(** The [n]-digit decimal [d * 10^(k-n)] next to [m * 2^e] that reads
    back as it, if one does. *)
Definition candidate (m : positive) (e k n : Z) : option Z :=
  let num := Zpos m * 2 ^ Z.max e 0 * 10 ^ Z.max (n - k) 0 in
  let den := 2 ^ Z.max (- e) 0 * 10 ^ Z.max (k - n) 0 in
  let lo := num / den in
  let r := num mod den in
  let ok d := sf_eqb (of_decimal false d (k - n)) (S754_finite false m e) in
  match ok lo, ok (lo + 1) with
  | true, true => Some (if 2 * r <=? den then lo else lo + 1)
  | true, false => Some lo
  | false, true => Some (lo + 1)
  | false, false => None
  end.

Fixpoint shortest (fuel : nat) (m : positive) (e k n : Z) : Z * Z :=
  match candidate m e k n with
  | Some d => (d, n)
  | None =>
      match fuel with
      | O => (Zpos m * 2 ^ Z.max e 0 * 10 ^ Z.max (n - k) 0
              / (2 ^ Z.max (- e) 0 * 10 ^ Z.max (k - n) 0), n)
      | S fuel' => shortest fuel' m e k (n + 1)
      end
  end.

Fixpoint drop_zeros (s : list ascii) : list ascii :=
  match s with
  | "0"%char :: s' => drop_zeros s'
  | _ => s
  end.

Definition zeros (n : Z) : list ascii := repeat "0"%char (Z.to_nat n).

Definition repr_finite (neg : bool) (m : positive) (e : Z) : string :=
  let k := decimal_point m e in
  let '(d, n) := shortest 16 m e k 1 in
  let ds0 := list_ascii_of_string (decimal d) in
  let decpt := k + (Z.of_nat (List.length ds0) - n) in
  let ds := rev (drop_zeros (rev ds0)) in
  let nd := Z.of_nat (List.length ds) in
  let body : list ascii :=
    if (decpt <=? -4) || (16 <? decpt) then
      let ex := decpt - 1 in
      let ex_digits := list_ascii_of_string (decimal (Z.abs ex)) in
      (match ds with
       | d1 :: d2 :: rest => d1 :: "."%char :: d2 :: rest
       | _ => ds
       end
       ++ "e"%char :: (if ex <? 0 then "-"%char else "+"%char)
       :: (if Z.abs ex <? 10 then "0"%char :: ex_digits else ex_digits))%list
    else if decpt <=? 0 then
      ("0"%char :: "."%char :: zeros (- decpt) ++ ds)%list
    else if nd <=? decpt then
      (ds ++ zeros (decpt - nd) ++ ["."%char; "0"%char])%list
    else
      (firstn (Z.to_nat decpt) ds ++ "."%char :: skipn (Z.to_nat decpt) ds)%list
  in
  (if neg then "-" else "") ++ string_of_list_ascii body.

Definition repr_special (f : spec_float) : string :=
  match f with
  | S754_zero s => if s then "-0.0" else "0.0"
  | S754_infinity s => if s then "-inf" else "inf"
  | _ => "nan"
  end.

Definition repr (f : spec_float) : string :=
  match f with
  | S754_finite s m e =>
      match round_binary s m e with
      | S754_finite s' m' e' => repr_finite s' m' e'
      | f' => repr_special f'
      end
  | _ => repr_special f
  end.

End PyFloat.

(** ** [str] and [repr] of values *)

Definition backslash : ascii := ascii_of_nat 92.
Definition double_quote : ascii := ascii_of_nat 34.
Definition single_quote : ascii := ascii_of_nat 39.

Definition hex_digit (n : nat) : ascii :=
  nth n (list_ascii_of_string "0123456789abcdef") "0"%char.

(** [c.isprintable()] for a code point below 256. *)
Definition is_printable (c : ascii) : bool :=
  let n := Z.of_nat (nat_of_ascii c) in
  ((32 <=? n) && (n <=? 126)) || ((161 <=? n) && negb (n =? 173)).

Definition escape_char (quote c : ascii) : string :=
  if Ascii.eqb c quote || Ascii.eqb c backslash
  then String backslash (String c EmptyString)
  else if Ascii.eqb c (ascii_of_nat 9) then String backslash "t"
  else if Ascii.eqb c (ascii_of_nat 10) then String backslash "n"
  else if Ascii.eqb c (ascii_of_nat 13) then String backslash "r"
  else if is_printable c then String c EmptyString
  else
    let n := nat_of_ascii c in
    String backslash
      (String "x"%char
         (String (hex_digit (n / 16)) (String (hex_digit (n mod 16)) EmptyString))).

Fixpoint escape (quote : ascii) (s : string) : string :=
  match s with
  | EmptyString => EmptyString
  | String c s' => escape_char quote c ++ escape quote s'
  end.

(** [repr(s)] for a [str]: single quotes, unless the text has a single
    quote and no double quote. *)
Definition str_repr (s : string) : string :=
  let quote :=
    if contains single_quote s && negb (contains double_quote s)
    then double_quote else single_quote in
  String quote (escape quote s) ++ String quote EmptyString.

(** [sep.join(parts)] *)
Fixpoint join (sep : string) (parts : list string) : string :=
  match parts with
  | [] => EmptyString
  | [p] => p
  | p :: rest => p ++ sep ++ join sep rest
  end.

(** [repr(v)]: it raises when an [int] in [v], at any depth, is too long
    to be written. *)
Fixpoint py_repr (v : pyval) : result string :=
  match v with
  | PNone => Ret "None"
  | PBool b => Ret (if b then "True" else "False")
  | PInt n => int_str n
  | PFloat f => Ret (PyFloat.repr f)
  | PStr s => Ret (str_repr s)
  | PList l =>
      match map_result py_repr l with
      | Ret items => Ret ("[" ++ join ", " items ++ "]")
      | Raise e => Raise e
      end
  | PDict d =>
      match
        map_result
          (fun '(k, x) =>
             match py_repr x with
             | Ret text => Ret (str_repr k ++ ": " ++ text)
             | Raise e => Raise e
             end)
          d
      with
      | Ret items => Ret ("{" ++ join ", " items ++ "}")
      | Raise e => Raise e
      end
  end.

(** [str(v)], which is also how an f-string renders [{v}]. *)
Definition py_str (v : pyval) : result string :=
  match v with
  | PStr s => Ret s
  | _ => py_repr v
  end.

(** [float(v)] *)
Definition py_float (v : pyval) : result spec_float :=
  match v with
  | PFloat f => Ret f
  | PInt n => PyFloat.of_int n
  | PBool b => PyFloat.of_int (if b then 1 else 0)
  | PStr s =>
      match PyFloat.parse s with
      | Some f => Ret f
      | None =>
          Raise (Exn ValueError ("could not convert string to float: " ++ str_repr s))
      end
  | _ =>
      Raise (Exn TypeError
               ("float() argument must be a string or a real number, not '"
                ++ type_name v ++ "'"))
  end.

(** [v.split(sep)]: only a [str] has the method. *)
Definition method_split (v : pyval) (sep : ascii) : result (list string) :=
  match v with
  | PStr s => Ret (split sep s)
  | _ =>
      Raise (Exn AttributeError
               ("'" ++ type_name v ++ "' object has no attribute 'split'"))
  end.

(** [v.get(key, default)]: only a [dict] has the method. *)
Definition method_get (v : pyval) (key : string) (default : pyval) : result pyval :=
  match v with
  | PDict d => Ret (dict_get_default d key default)
  | _ =>
      Raise (Exn AttributeError
               ("'" ++ type_name v ++ "' object has no attribute 'get'"))
  end.

(** ** The interpreter state and the outside world *)

(** An instance of the class: the two attributes [__init__] sets. *)
Record NowPaymentsAPI : Type := {
  api_key : string;
  headers : list (string * string)
}.

Inductive http_method : Type := GET | POST.

(** A call [requests.get(url, params=..., headers=...)] or
    [requests.post(url, json=..., headers=...)]. *)
Record Request : Type := {
  req_method : http_method;
  req_url : string;
  req_params : list (string * string);
  req_json : option pyval;
  req_headers : list (string * string)
}.

(** The body of a response, as [response.json()] sees it: a JSON document,
    or text that does not decode (with the decoder's message). *)
Inductive body : Type :=
| Json (v : pyval)
| NotJson (msg : string).

Record Response : Type := {
  status_code : Z;
  reason : string;
  url : string;
  content : body
}.

(** What the code can read and write: the class attribute, the instance
    [self], the lines given to [logger.error] and the calls given to
    [requests], both oldest first. *)
Record PyState : Type := {
  BASE_URL : string;
  self : NowPaymentsAPI;
  log : list string;
  sent : list Request
}.

(** What the code can only observe: the answer of [requests] to a call (a
    response, or the exception it raises) and the clock. *)
Record World : Type := {
  http_send : Request -> result Response;
  now_timestamp : spec_float;
  now_isoformat : string
}.

(** ** The monad of operations *)

Definition M (A : Type) : Type := World -> PyState -> result A * PyState.

Definition ret {A : Type} (a : A) : M A := fun _ st => (Ret a, st).

Definition raise {A : Type} (e : exn) : M A := fun _ st => (Raise e, st).

Definition bind {A B : Type} (m : M A) (k : A -> M B) : M B :=
  fun w st =>
    match m w st with
    | (Ret a, st') => k a w st'
    | (Raise e, st') => (Raise e, st')
    end.

Notation "x <- m ;; k" := (bind m (fun x => k))
  (at level 61, m at next level, right associativity).
Notation "m ;;; k" := (bind m (fun _ => k))
  (at level 61, right associativity).

(** [try: body  except <catches> as e: handler e] *)
Definition try_except {A : Type}
  (body : M A) (catches : exn -> bool) (handler : exn -> M A) : M A :=
  fun w st =>
    match body w st with
    | (Raise e, st') => if catches e then handler e w st' else (Raise e, st')
    | done => done
    end.

Definition lift {A : Type} (r : result A) : M A := fun _ st => (r, st).

Definition get_state : M PyState := fun _ st => (Ret st, st).

Definition add_log (msg : string) (st : PyState) : PyState :=
  {| BASE_URL := BASE_URL st; self := self st;
     log := log st ++ [msg]; sent := sent st |}.

Definition add_sent (req : Request) (st : PyState) : PyState :=
  {| BASE_URL := BASE_URL st; self := self st;
     log := log st; sent := sent st ++ [req] |}.

(** [logger.error(msg)] *)
Definition logger_error (msg : string) : M unit :=
  fun _ st => (Ret tt, add_log msg st).

(** The call is recorded, then answered by the world. *)
Definition requests_call (req : Request) : M Response :=
  fun w st => (http_send w req, add_sent req st).

Definition post_request (url : string) (json : pyval)
  (hdrs : list (string * string)) : Request :=
  {| req_method := POST; req_url := url; req_params := [];
     req_json := Some json; req_headers := hdrs |}.

Definition get_request (url : string) (params : list (string * string))
  (hdrs : list (string * string)) : Request :=
  {| req_method := GET; req_url := url; req_params := params;
     req_json := None; req_headers := hdrs |}.

(** [requests.post(url, json=json, headers=headers)] *)
Definition requests_post (url : string) (json : pyval)
  (hdrs : list (string * string)) : M Response :=
  requests_call (post_request url json hdrs).

(** [requests.get(url, params=params, headers=headers)] *)
Definition requests_get (url : string) (params : list (string * string))
  (hdrs : list (string * string)) : M Response :=
  requests_call (get_request url params hdrs).

(** [response.raise_for_status()]: an [HTTPError] for a status in
    [400 <= status < 600], nothing otherwise.  The status written in the
    message has three digits. *)
Definition http_error_msg (r : Response) : option string :=
  if (400 <=? status_code r) && (status_code r <? 500) then
    Some (decimal (status_code r) ++ " Client Error: " ++ reason r
          ++ " for url: " ++ url r)
  else if (500 <=? status_code r) && (status_code r <? 600) then
    Some (decimal (status_code r) ++ " Server Error: " ++ reason r
          ++ " for url: " ++ url r)
  else None.

Definition raise_for_status (r : Response) : M unit :=
  match http_error_msg r with
  | Some msg => raise (Exn HTTPError msg)
  | None => ret tt
  end.

(** [response.json()] *)
Definition response_json (r : Response) : M pyval :=
  match content r with
  | Json v => ret v
  | NotJson msg => raise (Exn JSONDecodeError msg)
  end.

(** [datetime.now().timestamp()] and [datetime.now().isoformat()] *)
Definition datetime_now_timestamp : M spec_float :=
  fun w st => (Ret (now_timestamp w), st).

Definition datetime_now_isoformat : M string :=
  fun w st => (Ret (now_isoformat w), st).

(** ** class NowPaymentsAPI *)

(** The class attribute, as the class statement binds it. *)
Definition class_BASE_URL : string := "https://api.nowpayments.io/v1".

(** [__init__], given the value of [Config.NOW_PAYMENTS_API_KEY]. *)
Definition __init__ (config_key : string) : M unit :=
  fun _ st =>
    (Ret tt,
     {| BASE_URL := BASE_URL st;
        self := {| api_key := config_key;
                   headers := [("x-api-key", config_key);
                               ("Content-Type", "application/json")] |};
        log := log st; sent := sent st |}).

(** The state once the module is loaded: the class statement has bound
    [BASE_URL] and [now_payments = NowPaymentsAPI()] has run [__init__] on
    a fresh instance (its attributes stand empty until then). *)
Definition loaded (config_key : string) (w : World) : PyState :=
  snd (__init__ config_key w
         {| BASE_URL := class_BASE_URL;
            self := {| api_key := ""; headers := [] |};
            log := []; sent := [] |}).

(** The order id of a deposit: [f"deposit_{user_id}_{timestamp}"]. *)
Definition order_id_of (user_id : string) (timestamp : spec_float) : string :=
  "deposit_" ++ user_id ++ "_" ++ PyFloat.repr timestamp.

(** The JSON payload of [create_payment]. *)
Definition payment_payload (price_amount : spec_float) (user_id : string)
  (timestamp : spec_float) : pyval :=
  PDict
    [("price_amount", PFloat price_amount);
     ("price_currency", PStr "usd");
     ("pay_currency", PStr "usdt");
     ("order_id", PStr (order_id_of user_id timestamp));
     ("order_description", PStr ("Deposit for user " ++ user_id));
     ("ipn_callback_url", PStr "https://your-domain.com/nowpayments/callback");
     ("success_url", PStr "https://your-domain.com/deposit/success");
     ("cancel_url", PStr "https://your-domain.com/deposit/cancel")].

Definition create_payment (price_amount : spec_float) (user_id : string)
  : M pyval :=
  try_except
    (st <- get_state ;;
     let endpoint := BASE_URL st ++ "/payment" in
     now <- datetime_now_timestamp ;;
     let payload := payment_payload price_amount user_id now in
     response <- requests_post endpoint payload (headers (self st)) ;;
     raise_for_status response ;;;
     response_json response)
    is_RequestException
    (fun e =>
       logger_error ("Error creating payment: " ++ exn_str e) ;;;
       raise e).

(** The JSON payload of [create_withdrawal]. *)
Definition withdrawal_payload (address : string) (amount : spec_float)
  (user_id : string) (isoformat : string) : pyval :=
  PDict
    [("withdrawals",
      PList
        [PDict
           [("address", PStr address);
            ("currency", PStr "usdt");
            ("amount", PFloat amount);
            ("ipn_callback_url",
             PStr "https://your-domain.com/nowpayments/payout-callback");
            ("payload",
             PDict [("user_id", PStr user_id);
                    ("timestamp", PStr isoformat)])]])].

Definition create_withdrawal (address : string) (amount : spec_float)
  (user_id : string) : M pyval :=
  try_except
    (st <- get_state ;;
     let endpoint := BASE_URL st ++ "/payout" in
     now <- datetime_now_isoformat ;;
     let payload := withdrawal_payload address amount user_id now in
     response <- requests_post endpoint payload (headers (self st)) ;;
     raise_for_status response ;;;
     response_json response)
    is_RequestException
    (fun e =>
       logger_error ("Error creating withdrawal: " ++ exn_str e) ;;;
       raise e).

Definition get_payment_status (payment_id : string) : M pyval :=
  try_except
    (st <- get_state ;;
     let endpoint := BASE_URL st ++ "/payment/" ++ payment_id in
     response <- requests_get endpoint [] (headers (self st)) ;;
     raise_for_status response ;;;
     response_json response)
    is_RequestException
    (fun e =>
       logger_error ("Error getting payment status: " ++ exn_str e) ;;;
       raise e).

Definition get_minimum_payment_amount : M spec_float :=
  try_except
    (st <- get_state ;;
     let endpoint := BASE_URL st ++ "/min-amount" in
     let params := [("currency_from", "usdt")] in
     response <- requests_get endpoint params (headers (self st)) ;;
     raise_for_status response ;;;
     document <- response_json response ;;
     min_amount <- lift (method_get document "min_amount" (PInt 0)) ;;
     lift (py_float min_amount))
    is_RequestException
    (fun e =>
       logger_error ("Error getting minimum payment amount: " ++ exn_str e) ;;;
       raise e).

Definition verify_callback (ipn_data : pydict) : M bool :=
  try_except
    (let auth_key := dict_get ipn_data "verification_key" in
     st <- get_state ;;
     key_text <- lift (py_str auth_key) ;;
     let endpoint := BASE_URL st ++ "/payment-verification/" ++ key_text in
     response <- requests_get endpoint [] (headers (self st)) ;;
     raise_for_status response ;;;
     document <- response_json response ;;
     status <- lift (method_get document "verification_status" PNone) ;;
     ret (eq_str status "confirmed"))
    is_RequestException
    (fun e =>
       logger_error ("Error verifying callback: " ++ exn_str e) ;;;
       ret false).

(** [order_id.split('_')[1]] *)
Definition extract_user_id (order_id : pyval) : result string :=
  match method_split order_id underscore with
  | Ret tokens => list_index tokens 1
  | Raise e => Raise e
  end.

Definition process_callback (callback_data : pydict) : M pyval :=
  try_except
    (let payment_status := dict_get callback_data "payment_status" in
     let order_id := dict_get callback_data "order_id" in
     (if negb (truthy order_id) || negb (truthy payment_status)
      then raise (Exn ValueError "Invalid callback data")
      else ret tt) ;;;
     user_id <- lift (extract_user_id order_id) ;;
     ret (PDict
            [("user_id", PStr user_id);
             ("status", payment_status);
             ("amount", dict_get callback_data "actually_paid");
             ("currency", dict_get callback_data "pay_currency");
             ("timestamp", dict_get callback_data "created_at")]))
    is_Exception
    (fun e =>
       logger_error ("Error processing callback data: " ++ exn_str e) ;;;
       raise e).

(** ** What the operations do, step by step *)

(** The call each operation hands to [requests]. *)
Definition payment_request (st : PyState) (w : World)
  (price_amount : spec_float) (user_id : string) : Request :=
  post_request (BASE_URL st ++ "/payment")
    (payment_payload price_amount user_id (now_timestamp w))
    (headers (self st)).

Definition withdrawal_request (st : PyState) (w : World)
  (address : string) (amount : spec_float) (user_id : string) : Request :=
  post_request (BASE_URL st ++ "/payout")
    (withdrawal_payload address amount user_id (now_isoformat w))
    (headers (self st)).

Definition status_request (st : PyState) (payment_id : string) : Request :=
  get_request (BASE_URL st ++ "/payment/" ++ payment_id) []
    (headers (self st)).

Definition min_amount_request (st : PyState) : Request :=
  get_request (BASE_URL st ++ "/min-amount") [("currency_from", "usdt")]
    (headers (self st)).

(** For [verify_callback], once the f-string has written the key as
    [key_text]. *)
Definition verification_request (st : PyState) (key_text : string) : Request :=
  get_request (BASE_URL st ++ "/payment-verification/" ++ key_text)
    [] (headers (self st)).

(** How [try: ... except RequestException as e: log; raise] ends, given
    what the guarded block did. *)
Definition log_and_reraise {A : Type} (what : string)
  (done : result A * PyState) : result A * PyState :=
  match done with
  | (Raise e, st) =>
      if is_RequestException e
      then (Raise e, add_log (what ++ exn_str e) st)
      else (Raise e, st)
  | _ => done
  end.

(** What [raise_for_status] and [json()] make of an answer. *)
Definition checked_json (answer : result Response) : result pyval :=
  match answer with
  | Raise e => Raise e
  | Ret r =>
      match http_error_msg r with
      | Some msg => Raise (Exn HTTPError msg)
      | None =>
          match content r with
          | Json v => Ret v
          | NotJson msg => Raise (Exn JSONDecodeError msg)
          end
      end
  end.

(** [float(document.get('min_amount', 0))] *)
Definition min_amount_of (document : pyval) : result spec_float :=
  match method_get document "min_amount" (PInt 0) with
  | Ret v => py_float v
  | Raise e => Raise e
  end.

(** [document.get('verification_status') == 'confirmed'] *)
Definition confirmed (document : pyval) : result bool :=
  match method_get document "verification_status" PNone with
  | Ret v => Ret (eq_str v "confirmed")
  | Raise e => Raise e
  end.

(** How [verify_callback] ends once the key is written as [key_text]. *)
Definition verify_after_key (w : World) (st : PyState) (key_text : string)
  : result bool * PyState :=
  match
    match checked_json (http_send w (verification_request st key_text)) with
    | Ret document => confirmed document
    | Raise e => Raise e
    end
  with
  | Ret b => (Ret b, add_sent (verification_request st key_text) st)
  | Raise e =>
      if is_RequestException e
      then (Ret false,
            add_log ("Error verifying callback: " ++ exn_str e)
              (add_sent (verification_request st key_text) st))
      else (Raise e, add_sent (verification_request st key_text) st)
  end.

(** ** Sessions and the client configuration *)

(** The configuration of the client: the class attribute and the instance
    attributes. *)
Definition configuration (st : PyState) : string * NowPaymentsAPI :=
  (BASE_URL st, self st).

(** A computation that leaves the configuration as it found it. *)
Definition keeps_configuration {A : Type} (m : M A) : Prop :=
  forall w st, configuration (snd (m w st)) = configuration st.

(** A call of one of the six operations by a user of the client. *)
Inductive call : Type :=
| CreatePayment (price_amount : spec_float) (user_id : string)
| CreateWithdrawal (address : string) (amount : spec_float) (user_id : string)
| GetPaymentStatus (payment_id : string)
| GetMinimumPaymentAmount
| VerifyCallback (ipn_data : pydict)
| ProcessCallback (callback_data : pydict).

(** The state a call leaves, whatever it returns or raises. *)
Definition perform (c : call) (w : World) (st : PyState) : PyState :=
  match c with
  | CreatePayment a u => snd (create_payment a u w st)
  | CreateWithdrawal addr a u => snd (create_withdrawal addr a u w st)
  | GetPaymentStatus pid => snd (get_payment_status pid w st)
  | GetMinimumPaymentAmount => snd (get_minimum_payment_amount w st)
  | VerifyCallback d => snd (verify_callback d w st)
  | ProcessCallback d => snd (process_callback d w st)
  end.

(** A session: calls in a row, each in the world of its moment. *)
Definition perform_all (calls : list (call * World)) (st : PyState) : PyState :=
  fold_left (fun st' cw => perform (fst cw) (snd cw) st') calls st.

(** ** Sample worlds and states *)

(** A world in which [requests] answers every call with [answer]; the clock
    reads 2023-11-14 22:13:20 UTC. *)
Definition world_answering (answer : result Response) : World :=
  {| http_send := fun _ => answer;
     now_timestamp := PyFloat.of_decimal false 1700000000 0;
     now_isoformat := "2023-11-14T22:13:20" |}.

Definition response_with (status : Z) (phrase : string) (doc : body) : Response :=
  {| status_code := status; reason := phrase;
     url := "https://api.nowpayments.io/v1/"; content := doc |}.

Definition offline : World :=
  world_answering (Raise (Exn ConnectionError "Connection refused")).

Definition fresh : PyState := loaded "secret" offline.

Definition sample_callback : pydict :=
  [("order_id", PStr "deposit_abc123_1700000000.0");
   ("payment_status", PStr "finished");
   ("actually_paid", PStr "10.0");
   ("pay_currency", PStr "usdt");
   ("created_at", PStr "2023-11-14T00:00:00Z")].

Definition ten : spec_float := PyFloat.of_decimal false 10 0.

(** 11 * 2^-1 *)
Definition five_and_a_half : spec_float := PyFloat.round_binary false 11 (-1).

Definition not_found : Response :=
  response_with 404 "Not Found" (Json (PDict [("message", PStr "Not Found")])).

Definition multiple_choices (doc : pydict) : Response :=
  response_with 300 "Multiple Choices" (Json (PDict doc)).

Definition ok (doc : pydict) : Response :=
  response_with 200 "OK" (Json (PDict doc)).

(** ** Requests, logs and sessions *)

(** The headers [__init__] builds from a key. *)
Definition headers_for (key : string) : list (string * string) :=
  [("x-api-key", key); ("Content-Type", "application/json")].

(** A call that carries the key of the client and addresses the service. *)
Definition authorized (key : string) (req : Request) : Prop :=
  req_headers req = headers_for key
  /\ String.prefix "https://api.nowpayments.io/v1/" (req_url req) = true.

(** The calls a call of the client hands to [requests]. *)
Definition requests_of (c : call) (w : World) (st : PyState) : list Request :=
  match c with
  | CreatePayment a u => [payment_request st w a u]
  | CreateWithdrawal addr a u => [withdrawal_request st w addr a u]
  | GetPaymentStatus pid => [status_request st pid]
  | GetMinimumPaymentAmount => [min_amount_request st]
  | VerifyCallback d =>
      match py_str (dict_get d "verification_key") with
      | Ret key_text => [verification_request st key_text]
      | Raise _ => []
      end
  | ProcessCallback _ => []
  end.

(** A computation that logs one line, [what] and the text of the error, for
    each exception it ends with that [catches] accepts, and nothing else. *)
Definition logs_its_errors {A : Type}
  (what : string) (catches : exn -> bool) (m : M A) : Prop :=
  forall w st,
    log (snd (m w st))
    = (log st
       ++ match fst (m w st) with
          | Raise e => if catches e then [String.append what (exn_str e)] else []
          | Ret _ => []
          end)%list.

(** The five keys [process_callback] reads. *)
Definition callback_keys : list string :=
  ["payment_status"; "order_id"; "actually_paid"; "pay_currency"; "created_at"].

(** ** Reference conversions *)

(** What Python's [float] gives on some values, and how Python writes some
    clock readings: the doubles are spelled out, mantissa and exponent. *)
Definition conversion_samples : list (pyval * spec_float) :=
  [(PStr "5.5", S754_finite false 6192449487634432 (-50));
   (PStr "1e5", S754_finite false 6871947673600000 (-36));
   (PStr "2.5E-3", S754_finite false 5764607523034235 (-61));
   (PStr "-0.75", S754_finite true 6755399441055744 (-53));
   (PStr " 10 ", S754_finite false 5629499534213120 (-49));
   (PStr "1_000.5", S754_finite false 8800491068719104 (-43));
   (PStr "0.1", S754_finite false 7205759403792794 (-56));
   (PStr "1e22", S754_finite false 4768371582031250 (21));
   (PStr ".5", S754_finite false 4503599627370496 (-53));
   (PStr "+7.", S754_finite false 7881299347898368 (-50));
   (PStr "-inf", S754_infinity true);
   (PStr "NaN", S754_nan);
   (PStr "1e400", S754_infinity false);
   (PStr "1e-400", S754_zero false);
   (PInt 7, S754_finite false 7881299347898368 (-50));
   (PInt (-3), S754_finite true 6755399441055744 (-51));
   (PInt 0, S754_zero false);
   (PInt 9007199254740993, S754_finite false 4503599627370496 (1));
   (PBool true, S754_finite false 4503599627370496 (-52));
   (PBool false, S754_zero false);
   (PFloat (S754_finite false 6192449487634432 (-50)), S754_finite false 6192449487634432 (-50))].

Definition timestamp_samples : list (spec_float * string) :=
  [(S754_finite false 7130316800000000 (-22), "1700000000.0");
   (S754_finite false 7130316800517812 (-22), "1700000000.123456");
   (S754_finite false 7308495222097314 (-22), "1742481046.223");
   (S754_finite false 7130316802097152 (-22), "1700000000.5");
   (S754_finite false 7130316799999996 (-22), "1699999999.999999");
   (S754_finite false 6291456000000004 (-22), "1500000000.000001");
   (S754_finite false 7130316800000004 (-22), "1700000000.000001");
   (S754_finite false 7941367688855552 (-23), "946684800.25")].

(** * Properties *)

(** ** Floats as Python reads and writes them *)

Lemma float_parse_samples :
  PyFloat.parse "5.5" = Some five_and_a_half
  /\ PyFloat.parse " 1_0.0e-1 " = Some (PyFloat.round_binary false 1 0)
  /\ PyFloat.parse "-Infinity" = Some (S754_infinity true)
  /\ PyFloat.parse "1e400" = Some (S754_infinity false)
  /\ PyFloat.parse "abc" = None
  /\ PyFloat.parse "" = None
  /\ PyFloat.parse "1_" = None
  /\ PyFloat.parse "1e" = None
  /\ PyFloat.parse "." = None.
Proof. repeat split; vm_compute; reflexivity. Qed.

Lemma float_repr_samples :
  PyFloat.repr (now_timestamp offline) = "1700000000.0"
  /\ PyFloat.repr (PyFloat.of_decimal false 1700000000123456 (-6))
     = "1700000000.123456"
  /\ PyFloat.repr (PyFloat.of_decimal false 1 (-1)) = "0.1"
  /\ PyFloat.repr (PyFloat.of_decimal true 25 (-6)) = "-2.5e-05"
  /\ PyFloat.repr (PyFloat.of_decimal false 1 16) = "1e+16"
  /\ PyFloat.repr (PyFloat.of_decimal false 1 23) = "1e+23"
  /\ PyFloat.repr (S754_zero true) = "-0.0".
Proof. repeat split; vm_compute; reflexivity. Qed.

(** The reference conversions hold of [py_float]. *)
Lemma conversion_samples_hold (v : pyval) (f : spec_float) :
  In (v, f) conversion_samples -> py_float v = Ret f.
Proof.
  unfold conversion_samples. simpl.
  intros H.
  repeat (destruct H as [H|H];
          [injection H as <- <-; vm_compute; reflexivity|]).
  contradiction.
Qed.

(** The reference clock readings are written, and read back, as Python
    does. *)
Lemma timestamp_samples_hold (f : spec_float) (text : string) :
  In (f, text) timestamp_samples ->
  PyFloat.repr f = text /\ PyFloat.parse text = Some f.
Proof.
  unfold timestamp_samples. simpl.
  intros H.
  repeat (destruct H as [H|H];
          [injection H as <- <-; split; vm_compute; reflexivity|]).
  contradiction.
Qed.

(** *** [float] of an [int] below 2^53 is exact *)

Lemma digits2_pos_lower (p : positive) :
  2 ^ (Zpos (digits2_pos p) - 1) <= Zpos p.
Proof.
  induction p as [p IH|p IH|]; simpl digits2_pos.
  - rewrite Pos2Z.inj_succ.
    replace (Z.succ (Zpos (digits2_pos p)) - 1)
      with (Z.succ (Zpos (digits2_pos p) - 1)) by lia.
    rewrite Z.pow_succ_r by lia. lia.
  - rewrite Pos2Z.inj_succ.
    replace (Z.succ (Zpos (digits2_pos p)) - 1)
      with (Z.succ (Zpos (digits2_pos p) - 1)) by lia.
    rewrite Z.pow_succ_r by lia. lia.
  - simpl. lia.
Qed.

Lemma digits2_pos_small (p : positive) :
  Zpos p < 2 ^ 53 -> Zpos (digits2_pos p) <= 53.
Proof.
  intros H. destruct (Z_le_gt_dec (Zpos (digits2_pos p)) 53) as [Hle|Hgt];
    [exact Hle|].
  pose proof (digits2_pos_lower p) as Hl.
  assert (2 ^ 53 <= 2 ^ (Zpos (digits2_pos p) - 1))
    by (apply Z.pow_le_mono_r; lia).
  lia.
Qed.

Lemma digits2_pos_iter (p k : positive) :
  digits2_pos (Pos.iter xO p k) = (digits2_pos p + k)%positive.
Proof.
  induction k as [|k IH] using Pos.peano_ind.
  - simpl. now rewrite Pos.add_1_r.
  - rewrite Pos.iter_succ. simpl. rewrite IH. lia.
Qed.

Lemma iter_xO_value (p k : positive) :
  Zpos (Pos.iter xO p k) = Zpos p * 2 ^ Zpos k.
Proof.
  induction k as [|k IH] using Pos.peano_ind.
  - simpl. lia.
  - rewrite Pos.iter_succ, Pos2Z.inj_xO, IH, Pos2Z.inj_succ, Z.pow_succ_r by lia.
    lia.
Qed.

Lemma round_binary_small (s : bool) (p : positive) :
  Zpos p < 2 ^ 53 ->
  exists m e,
    PyFloat.round_binary s p 0 = S754_finite s m e
    /\ e <= 0 /\ Zpos m = Zpos p * 2 ^ (- e).
Proof.
  intros Hp. pose proof (digits2_pos_small p Hp) as Hd.
  unfold PyFloat.round_binary, binary_round.
  set (d := digits2_pos p) in *.
  assert (Hfexp : fexp PyFloat.prec PyFloat.emax (Zpos d + 0) = Zpos d - 53).
  { unfold fexp, emin, PyFloat.prec, PyFloat.emax. lia. }
  rewrite Hfexp. unfold shl_align.
  assert (Haux : forall mz ez,
             digits2_pos mz = 53%positive -> -52 <= ez <= 0 ->
             binary_round_aux PyFloat.prec PyFloat.emax s (Zpos mz) ez loc_Exact
             = S754_finite s mz ez).
  { intros mz ez Hmz Hez.
    assert (Hf : fexp PyFloat.prec PyFloat.emax (53 + ez) - ez = 0).
    { unfold fexp, emin, PyFloat.prec, PyFloat.emax. lia. }
    assert (Hshr : shr_fexp PyFloat.prec PyFloat.emax (Zpos mz) ez loc_Exact
                   = ({| shr_m := Zpos mz; shr_r := false; shr_s := false |},
                      ez)).
    { cbv [shr_fexp Zdigits2 shr_record_of_loc]. rewrite Hmz, Hf.
      reflexivity. }
    cbv [binary_round_aux]. rewrite Hshr.
    cbv [shr_m loc_of_shr_record round_nearest_even]. rewrite Hshr.
    cbv [shr_m].
    replace (ez <=? PyFloat.emax - PyFloat.prec) with true
      by (symmetry; apply Z.leb_le; unfold PyFloat.emax, PyFloat.prec; lia).
    reflexivity. }
  destruct (Zpos d - 53 - 0) as [|k|k] eqn:Hk.
  - exists p, 0. split; [|split; [lia|simpl; lia]].
    apply Haux; [|lia]. fold d. lia.
  - lia.
  - exists (Pos.iter xO p k), (Zpos d - 53). split; [|split].
    + apply Haux; [|lia]. rewrite digits2_pos_iter. fold d. lia.
    + lia.
    + rewrite iter_xO_value. f_equal. f_equal. lia.
Qed.

Lemma of_int_small (n : Z) :
  0 < Z.abs n < 2 ^ 53 ->
  exists m e,
    PyFloat.of_int n = Ret (S754_finite (n <? 0) m e)
    /\ e <= 0 /\ Zpos m = Z.abs n * 2 ^ (- e).
Proof.
  intros Hn. unfold PyFloat.of_int, binary_normalize.
  destruct n as [|p|p]; [simpl in Hn; lia| |].
  - destruct (round_binary_small false p) as [m [e [H [He Hm]]]];
      [simpl in Hn; lia|].
    unfold PyFloat.round_binary in H. rewrite H. exists m, e. auto.
  - destruct (round_binary_small true p) as [m [e [H [He Hm]]]];
      [simpl in Hn; lia|].
    unfold PyFloat.round_binary in H. rewrite H. exists m, e. auto.
Qed.

(** ** Splitting and the order id *)

Section Split.

Variable sep : ascii.

Lemma split_nonempty (s : string) : split sep s <> [].
Proof.
  destruct s as [|c s]; simpl; [discriminate|].
  destruct (Ascii.eqb c sep); [discriminate|].
  destruct (split sep s); discriminate.
Qed.

Lemma split_no_sep (s : string) :
  contains sep s = false -> split sep s = [s].
Proof.
  induction s as [|c s IH]; simpl; intros H; [reflexivity|].
  apply orb_false_iff in H as [Hc Hs].
  rewrite Hc, (IH Hs). reflexivity.
Qed.

(** The first token is the text before the first separator... *)
Lemma split_app_sep (a b : string) :
  contains sep a = false ->
  split sep (a ++ String sep b) = a :: split sep b.
Proof.
  induction a as [|c a IH]; simpl; intros H.
  - rewrite Ascii.eqb_refl. reflexivity.
  - apply orb_false_iff in H as [Hc Ha].
    rewrite Hc, (IH Ha). reflexivity.
Qed.

(** ... and so holds no separator itself. *)
Lemma split_head_no_sep (s : string) :
  contains sep (hd EmptyString (split sep s)) = false.
Proof.
  induction s as [|c s IH]; simpl; [reflexivity|].
  destruct (Ascii.eqb c sep) eqn:Hc; simpl; [reflexivity|].
  destruct (split sep s) as [|tok rest] eqn:Hs; simpl in *.
  - now rewrite Hc.
  - now rewrite Hc, IH.
Qed.

End Split.

Lemma contains_deposit : contains underscore "deposit" = false.
Proof. reflexivity. Qed.

(** The second token of [deposit_<rest>] is the first token of [rest]. *)
Lemma extract_deposit (rest : string) :
  extract_user_id (PStr ("deposit_" ++ rest))
  = Ret (hd EmptyString (split underscore rest)).
Proof.
  unfold extract_user_id, method_split.
  change ("deposit_" ++ rest) with ("deposit" ++ String underscore rest).
  rewrite (split_app_sep underscore "deposit" rest contains_deposit).
  unfold list_index. simpl.
  destruct (split underscore rest) eqn:Hs; [|reflexivity].
  now apply split_nonempty in Hs.
Qed.

(** A user id without underscore is read back from its order id. *)
Lemma extract_order_id (user_id : string) (timestamp : spec_float) :
  contains underscore user_id = false ->
  extract_user_id (PStr (order_id_of user_id timestamp)) = Ret user_id.
Proof.
  intros H. unfold order_id_of. rewrite extract_deposit.
  change (user_id ++ "_" ++ PyFloat.repr timestamp)
    with (user_id ++ String underscore (PyFloat.repr timestamp)).
  now rewrite (split_app_sep _ _ _ H).
Qed.

(** ** Running [process_callback] *)

Lemma dict_get_absent (d : pydict) (key : string) (default : pyval) :
  dict_mem d key = false -> dict_get_default d key default = default.
Proof.
  induction d as [|[k v] d IH]; simpl; intros H; [reflexivity|].
  apply orb_false_iff in H as [Hk Hd]. rewrite Hk. auto.
Qed.

(** The presence check fails: the [ValueError] is logged and re-raised. *)
Lemma process_callback_rejects (d : pydict) (w : World) (st : PyState) :
  truthy (dict_get d "order_id") && truthy (dict_get d "payment_status") = false ->
  process_callback d w st
  = (Raise (Exn ValueError "Invalid callback data"),
     add_log "Error processing callback data: Invalid callback data" st).
Proof.
  intros H. unfold process_callback, try_except, bind.
  rewrite <- negb_andb, H. reflexivity.
Qed.

(** The presence check passes: the outcome is that of the split-and-index
    step. *)
Lemma process_callback_accepts (d : pydict) (w : World) (st : PyState) :
  truthy (dict_get d "order_id") = true ->
  truthy (dict_get d "payment_status") = true ->
  process_callback d w st
  = match extract_user_id (dict_get d "order_id") with
    | Ret user_id =>
        (Ret (PDict
                [("user_id", PStr user_id);
                 ("status", dict_get d "payment_status");
                 ("amount", dict_get d "actually_paid");
                 ("currency", dict_get d "pay_currency");
                 ("timestamp", dict_get d "created_at")]),
         st)
    | Raise e =>
        (Raise e, add_log ("Error processing callback data: " ++ exn_str e) st)
    end.
Proof.
  intros Ho Hp. unfold process_callback, try_except, bind, lift.
  rewrite Ho, Hp. simpl.
  destruct (extract_user_id (dict_get d "order_id")); reflexivity.
Qed.

Lemma truthy_str (s : string) : s <> "" -> truthy (PStr s) = true.
Proof.
  intros H. simpl. destruct (String.eqb_spec s ""); [contradiction|reflexivity].
Qed.

(** ** The callback operations *)

(** C2, as the specification words it, fails: a callback that contains both
    [order_id] and [payment_status], the latter empty, is rejected by the
    presence check, which tests truth and not membership. *)
Lemma process_callback_empty_status_rejected :
  let d := [("order_id", PStr "deposit_abc123_1700000000.0");
            ("payment_status", PStr "")] in
  dict_mem d "order_id" = true
  /\ dict_mem d "payment_status" = true
  /\ process_callback d offline fresh
     = (Raise (Exn ValueError "Invalid callback data"),
        add_log "Error processing callback data: Invalid callback data" fresh).
Proof. repeat split; reflexivity. Qed.

(** C2 (amended): for every callback dictionary whose [order_id] is the
    string [deposit_<userId>_<timestamp>] and whose [payment_status] is
    truthy, [process_callback] returns exactly the dictionary with
    [user_id] the second underscore-separated token of [order_id],
    [status] the [payment_status], [amount] the [actually_paid] field,
    [currency] the [pay_currency] field and [timestamp] the [created_at]
    field, and leaves the state as it was: nothing is sent and nothing is
    logged. *)
Theorem process_callback_normalizes
  (d : pydict) (user_id timestamp : string) (w : World) (st : PyState) :
  dict_get d "order_id" = PStr ("deposit_" ++ user_id ++ "_" ++ timestamp) ->
  truthy (dict_get d "payment_status") = true ->
  exists token,
    nth_error (split underscore ("deposit_" ++ user_id ++ "_" ++ timestamp)) 1
    = Some token
    /\ process_callback d w st
       = (Ret (PDict
                 [("user_id", PStr token);
                  ("status", dict_get d "payment_status");
                  ("amount", dict_get d "actually_paid");
                  ("currency", dict_get d "pay_currency");
                  ("timestamp", dict_get d "created_at")]),
          st).
Proof.
  intros Ho Hp.
  set (rest := user_id ++ "_" ++ timestamp) in *.
  exists (hd EmptyString (split underscore rest)).
  split.
  - change ("deposit_" ++ rest) with ("deposit" ++ String underscore rest).
    rewrite (split_app_sep underscore "deposit" rest contains_deposit).
    cbn [nth_error].
    destruct (split underscore rest) eqn:Hs;
      [now apply split_nonempty in Hs | reflexivity].
  - rewrite process_callback_accepts; [|rewrite Ho; reflexivity|exact Hp].
    rewrite Ho, extract_deposit. reflexivity.
Qed.

(** The example of the specification. *)
Lemma process_callback_normalizes_sample :
  process_callback sample_callback offline fresh
  = (Ret (PDict
            [("user_id", PStr "abc123");
             ("status", PStr "finished");
             ("amount", PStr "10.0");
             ("currency", PStr "usdt");
             ("timestamp", PStr "2023-11-14T00:00:00Z")]),
     fresh).
Proof.
  destruct (process_callback_normalizes sample_callback "abc123" "1700000000.0"
              offline fresh eq_refl eq_refl) as [token [Htoken Hrun]].
  rewrite Hrun. simpl in Htoken. injection Htoken as <-. reflexivity.
Defined.

(** C3: when [order_id] or [payment_status] is missing from the callback
    dictionary, [process_callback] raises [ValueError("Invalid callback
    data")], after logging it, and returns no result. *)
Theorem process_callback_missing_field
  (d : pydict) (w : World) (st : PyState) :
  dict_mem d "order_id" = false \/ dict_mem d "payment_status" = false ->
  process_callback d w st
  = (Raise (Exn ValueError "Invalid callback data"),
     add_log "Error processing callback data: Invalid callback data" st).
Proof.
  intros H. apply process_callback_rejects. unfold dict_get.
  destruct H as [H|H]; rewrite (dict_get_absent _ _ _ H); simpl;
    [reflexivity | apply andb_false_r].
Qed.

(** The example of the specification: [order_id] is missing. *)
Lemma process_callback_missing_order_id :
  process_callback [("payment_status", PStr "finished")] offline fresh
  = (Raise (Exn ValueError "Invalid callback data"),
     add_log "Error processing callback data: Invalid callback data" fresh).
Proof.
  apply (process_callback_missing_field
           [("payment_status", PStr "finished")] offline fresh).
  left. reflexivity.
Defined.

(** C9: a callback that passes the presence check with an [order_id] that
    is a non-empty string without underscore makes [process_callback] raise
    [IndexError] from [order_id.split('_')[1]] (logged and re-raised), not
    the [ValueError] of the presence check. *)
Theorem process_callback_index_error
  (d : pydict) (order_id : string) (w : World) (st : PyState) :
  dict_get d "order_id" = PStr order_id ->
  order_id <> "" ->
  contains underscore order_id = false ->
  truthy (dict_get d "payment_status") = true ->
  process_callback d w st
  = (Raise (Exn IndexError "list index out of range"),
     add_log "Error processing callback data: list index out of range" st).
Proof.
  intros Ho Hne Hno Hp.
  rewrite process_callback_accepts;
    [|rewrite Ho; now apply truthy_str|exact Hp].
  rewrite Ho. unfold extract_user_id, method_split.
  rewrite (split_no_sep _ _ Hno). reflexivity.
Qed.

(** The callback [{order_id: "deposit", payment_status: "finished"}]. *)
Lemma process_callback_index_error_sample :
  process_callback
    [("order_id", PStr "deposit"); ("payment_status", PStr "finished")]
    offline fresh
  = (Raise (Exn IndexError "list index out of range"),
     add_log "Error processing callback data: list index out of range" fresh).
Proof.
  apply (process_callback_index_error
           [("order_id", PStr "deposit"); ("payment_status", PStr "finished")]
           "deposit" offline fresh);
    [reflexivity | discriminate | reflexivity | reflexivity].
Defined.

(** C7: the user id read back from the order id that [create_payment]
    generates is the original one exactly when the user id holds no
    underscore, whatever the timestamp. *)
Theorem order_id_round_trip (user_id : string) (timestamp : spec_float) :
  extract_user_id (PStr (order_id_of user_id timestamp)) = Ret user_id
  <-> contains underscore user_id = false.
Proof.
  split.
  - unfold order_id_of. rewrite extract_deposit.
    intros H. injection H as H.
    rewrite <- H at 1. apply split_head_no_sep.
  - apply extract_order_id.
Qed.

(** X20: the deposit of a user without underscore in its id, paid and
    reported back: [process_callback], given the order id of the request
    that [create_payment] built and a truthy status, names the user who
    made the deposit. *)
Lemma deposit_round_trip (price_amount : spec_float) (user_id : string)
  (status : pyval) (w w' : World) (st st' : PyState) (payload : pydict) :
  contains underscore user_id = false ->
  truthy status = true ->
  req_json (payment_request st w price_amount user_id) = Some (PDict payload) ->
  process_callback
    [("order_id", dict_get payload "order_id"); ("payment_status", status)]
    w' st'
  = (Ret (PDict
            [("user_id", PStr user_id);
             ("status", status);
             ("amount", PNone);
             ("currency", PNone);
             ("timestamp", PNone)]),
     st').
Proof.
  intros Hu Hs Hreq. injection Hreq as <-.
  rewrite process_callback_accepts; [|reflexivity|exact Hs].
  change (dict_get _ "order_id")
    with (PStr (order_id_of user_id (now_timestamp w))).
  now rewrite (extract_order_id _ _ Hu).
Qed.

(** ** The requesting operations *)

Lemma create_payment_run (a : spec_float) (u : string) (w : World) (st : PyState) :
  create_payment a u w st
  = log_and_reraise "Error creating payment: "
      (checked_json (http_send w (payment_request st w a u)),
       add_sent (payment_request st w a u) st).
Proof.
  unfold create_payment, try_except, bind, get_state, datetime_now_timestamp,
    requests_post, requests_call, raise_for_status, response_json,
    log_and_reraise, checked_json, logger_error, raise, ret.
  fold (payment_request st w a u).
  destruct (http_send w (payment_request st w a u)) as [r|e]; [|reflexivity].
  destruct (http_error_msg r); [reflexivity|].
  destruct (content r); reflexivity.
Qed.

Lemma create_withdrawal_run (addr : string) (a : spec_float) (u : string)
  (w : World) (st : PyState) :
  create_withdrawal addr a u w st
  = log_and_reraise "Error creating withdrawal: "
      (checked_json (http_send w (withdrawal_request st w addr a u)),
       add_sent (withdrawal_request st w addr a u) st).
Proof.
  unfold create_withdrawal, try_except, bind, get_state, datetime_now_isoformat,
    requests_post, requests_call, raise_for_status, response_json,
    log_and_reraise, checked_json, logger_error, raise, ret.
  fold (withdrawal_request st w addr a u).
  destruct (http_send w (withdrawal_request st w addr a u)) as [r|e];
    [|reflexivity].
  destruct (http_error_msg r); [reflexivity|].
  destruct (content r); reflexivity.
Qed.

Lemma get_payment_status_run (pid : string) (w : World) (st : PyState) :
  get_payment_status pid w st
  = log_and_reraise "Error getting payment status: "
      (checked_json (http_send w (status_request st pid)),
       add_sent (status_request st pid) st).
Proof.
  unfold get_payment_status, try_except, bind, get_state,
    requests_get, requests_call, raise_for_status, response_json,
    log_and_reraise, checked_json, logger_error, raise, ret.
  fold (status_request st pid).
  destruct (http_send w (status_request st pid)) as [r|e]; [|reflexivity].
  destruct (http_error_msg r); [reflexivity|].
  destruct (content r); reflexivity.
Qed.

Lemma get_minimum_payment_amount_run (w : World) (st : PyState) :
  get_minimum_payment_amount w st
  = log_and_reraise "Error getting minimum payment amount: "
      (match checked_json (http_send w (min_amount_request st)) with
       | Ret document => min_amount_of document
       | Raise e => Raise e
       end,
       add_sent (min_amount_request st) st).
Proof.
  unfold get_minimum_payment_amount, try_except, bind, get_state,
    requests_get, requests_call, raise_for_status, response_json,
    log_and_reraise, checked_json, min_amount_of, logger_error, raise, ret, lift.
  fold (min_amount_request st).
  destruct (http_send w (min_amount_request st)) as [r|e]; [|reflexivity].
  destruct (http_error_msg r); [reflexivity|].
  destruct (content r) as [v|msg]; [|reflexivity].
  destruct (method_get v "min_amount" (PInt 0)) as [x|e]; [|reflexivity].
  destruct (py_float x) as [f|e]; [reflexivity|].
  destruct (is_RequestException e); reflexivity.
Qed.

Lemma verify_callback_run (d : pydict) (w : World) (st : PyState) :
  verify_callback d w st
  = match py_str (dict_get d "verification_key") with
    | Ret key_text => verify_after_key w st key_text
    | Raise e =>
        if is_RequestException e
        then (Ret false, add_log ("Error verifying callback: " ++ exn_str e) st)
        else (Raise e, st)
    end.
Proof.
  unfold verify_callback, verify_after_key, try_except, bind, get_state,
    requests_get, requests_call, raise_for_status, response_json,
    checked_json, confirmed, logger_error, raise, ret, lift.
  destruct (py_str (dict_get d "verification_key")) as [key_text|e0];
    [|reflexivity].
  fold (verification_request st key_text).
  destruct (http_send w (verification_request st key_text)) as [r|e];
    [|reflexivity].
  destruct (http_error_msg r); [reflexivity|].
  destruct (content r) as [v|msg]; [|reflexivity].
  destruct (method_get v "verification_status" PNone) as [x|e]; reflexivity.
Qed.

(** [verify_callback] on a key that the f-string can write. *)
Lemma verify_callback_rendered
  (d : pydict) (w : World) (st : PyState) (key_text : string) :
  py_str (dict_get d "verification_key") = Ret key_text ->
  verify_callback d w st = verify_after_key w st key_text.
Proof. intros H. now rewrite verify_callback_run, H. Qed.

(** ** Status codes *)

Lemma http_error_status (r : Response) :
  400 <= status_code r < 600 -> exists msg, http_error_msg r = Some msg.
Proof.
  intros [Hlo Hhi]. unfold http_error_msg.
  destruct (status_code r <? 500) eqn:H5.
  - replace (400 <=? status_code r) with true by (symmetry; lia).
    simpl. eauto.
  - replace (400 <=? status_code r) with true by (symmetry; lia).
    replace (500 <=? status_code r) with true by (symmetry; lia).
    replace (status_code r <? 600) with true by (symmetry; lia).
    simpl. eauto.
Qed.

Lemma http_ok_status (r : Response) :
  ~ 400 <= status_code r < 600 <-> http_error_msg r = None.
Proof.
  unfold http_error_msg. split.
  - intros H.
    destruct (400 <=? status_code r) eqn:H4,
             (status_code r <? 500) eqn:H5,
             (500 <=? status_code r) eqn:H6,
             (status_code r <? 600) eqn:H7; simpl; try reflexivity; lia.
  - intros H [Hlo Hhi].
    destruct (http_error_status r (conj Hlo Hhi)) as [msg Hmsg].
    unfold http_error_msg in Hmsg. congruence.
Qed.

Lemma success_status_ok (r : Response) :
  200 <= status_code r < 300 -> http_error_msg r = None.
Proof. intros H. apply http_ok_status. lia. Qed.

Lemma py_float_error (v : pyval) (e : exn) :
  py_float v = Raise e -> is_RequestException e = false.
Proof.
  assert (Hint : forall n, PyFloat.of_int n = Raise e ->
                           is_RequestException e = false).
  { intros n. unfold PyFloat.of_int.
    destruct (binary_normalize PyFloat.prec PyFloat.emax n 0 false);
      intros H; inversion H; reflexivity. }
  destruct v; simpl; try (intros H; inversion H; reflexivity); eauto.
  destruct (PyFloat.parse s); intros H; inversion H; reflexivity.
Qed.

(** ** Error statuses *)

(** C1, as the specification words it, fails: a response with status 300
    is not 2xx, yet [create_payment] returns its JSON document, because
    [raise_for_status] raises only for 4xx and 5xx. *)
Lemma create_payment_returns_on_300 :
  let r := multiple_choices [("payment_id", PStr "5745459419")] in
  let w := world_answering (Ret r) in
  ~ 200 <= status_code r < 300
  /\ http_send w (payment_request fresh w ten "abc123") = Ret r
  /\ create_payment ten "abc123" w fresh
     = (Ret (PDict [("payment_id", PStr "5745459419")]),
        add_sent (payment_request fresh w ten "abc123") fresh).
Proof.
  cbv zeta. split; [|split].
  - simpl. lia.
  - reflexivity.
  - rewrite create_payment_run. reflexivity.
Qed.

(** C1 (amended): for every response of the remote service with a 4xx or
    5xx status, each of [create_payment], [create_withdrawal],
    [get_payment_status] and [get_minimum_payment_amount] raises the
    [HTTPError] of [raise_for_status] (a [RequestException]) to the caller
    after logging it, and returns no value. *)
Theorem http_error_is_reraised (w : World) (st : PyState) (r : Response) :
  400 <= status_code r < 600 ->
  exists msg,
    http_error_msg r = Some msg
    /\ is_RequestException (Exn HTTPError msg) = true
    /\ (forall a u,
          http_send w (payment_request st w a u) = Ret r ->
          create_payment a u w st
          = (Raise (Exn HTTPError msg),
             add_log ("Error creating payment: " ++ msg)
               (add_sent (payment_request st w a u) st)))
    /\ (forall addr a u,
          http_send w (withdrawal_request st w addr a u) = Ret r ->
          create_withdrawal addr a u w st
          = (Raise (Exn HTTPError msg),
             add_log ("Error creating withdrawal: " ++ msg)
               (add_sent (withdrawal_request st w addr a u) st)))
    /\ (forall pid,
          http_send w (status_request st pid) = Ret r ->
          get_payment_status pid w st
          = (Raise (Exn HTTPError msg),
             add_log ("Error getting payment status: " ++ msg)
               (add_sent (status_request st pid) st)))
    /\ (http_send w (min_amount_request st) = Ret r ->
        get_minimum_payment_amount w st
        = (Raise (Exn HTTPError msg),
           add_log ("Error getting minimum payment amount: " ++ msg)
             (add_sent (min_amount_request st) st))).
Proof.
  intros Hstatus.
  destruct (http_error_status r Hstatus) as [msg Hmsg].
  exists msg. split; [exact Hmsg|]. split; [reflexivity|].
  repeat split.
  - intros a u H. rewrite create_payment_run, H. simpl. now rewrite Hmsg.
  - intros addr a u H. rewrite create_withdrawal_run, H. simpl. now rewrite Hmsg.
  - intros pid H. rewrite get_payment_status_run, H. simpl. now rewrite Hmsg.
  - intros H. rewrite get_minimum_payment_amount_run, H. simpl. now rewrite Hmsg.
Qed.

(** The four operations against a service that answers 404. *)
Lemma http_error_is_reraised_404 :
  let w := world_answering (Ret not_found) in
  let e :=
    Exn HTTPError
      "404 Client Error: Not Found for url: https://api.nowpayments.io/v1/" in
  fst (create_payment ten "abc123" w fresh) = Raise e
  /\ fst (create_withdrawal "TXYZ" ten "abc123" w fresh) = Raise e
  /\ fst (get_payment_status "5745459419" w fresh) = Raise e
  /\ fst (get_minimum_payment_amount w fresh) = Raise e.
Proof.
  cbv zeta.
  destruct (http_error_is_reraised (world_answering (Ret not_found)) fresh
              not_found ltac:(simpl; lia))
    as [msg [Hmsg [_ [H1 [H2 [H3 H4]]]]]].
  vm_compute in Hmsg. injection Hmsg as <-.
  rewrite (H1 ten "abc123" eq_refl), (H2 "TXYZ" ten "abc123" eq_refl),
    (H3 "5745459419" eq_refl), (H4 eq_refl).
  repeat split.
Defined.

(** ** Verifying a callback *)





(** ** The minimum payment amount *)

Lemma get_minimum_payment_amount_ok (w : World) (st : PyState)
  (r : Response) (doc : pydict) :
  http_send w (min_amount_request st) = Ret r ->
  http_error_msg r = None ->
  content r = Json (PDict doc) ->
  get_minimum_payment_amount w st
  = (py_float (dict_get_default doc "min_amount" (PInt 0)),
     add_sent (min_amount_request st) st).
Proof.
  intros Hsend Hst Hbody.
  rewrite get_minimum_payment_amount_run, Hsend.
  unfold checked_json. rewrite Hst, Hbody.
  unfold min_amount_of, method_get, log_and_reraise.
  destruct (py_float (dict_get_default doc "min_amount" (PInt 0)))
    as [f|e] eqn:Hf; [reflexivity|].
  now rewrite (py_float_error _ _ Hf).
Qed.

(** C5: on a 2xx answer whose JSON object is [doc],
    [get_minimum_payment_amount] is [float(doc.get('min_amount', 0))]: the
    [min_amount] field converted to a float, with 0 for an absent field.
    On [{"min_amount": "5.5"}] it returns 5.5 and on [{}] it returns 0.
    The conversion is that of Python: an [int] below 2^53 in magnitude
    becomes the double of the same value, and the reference conversions
    (texts with sign, fraction, exponent, blanks, underscores, [inf] and
    [nan]; integers; booleans; floats) come out as in Python. *)
Theorem get_minimum_payment_amount_converts (w : World) (st : PyState)
  (r : Response) (doc : pydict) :
  http_send w (min_amount_request st) = Ret r ->
  200 <= status_code r < 300 ->
  content r = Json (PDict doc) ->
  get_minimum_payment_amount w st
  = (py_float (dict_get_default doc "min_amount" (PInt 0)),
     add_sent (min_amount_request st) st)
  /\ (dict_mem doc "min_amount" = false ->
      fst (get_minimum_payment_amount w st) = Ret (S754_zero false))
  /\ (doc = [("min_amount", PStr "5.5")] ->
      fst (get_minimum_payment_amount w st) = Ret five_and_a_half)
  /\ (doc = [] ->
      fst (get_minimum_payment_amount w st) = Ret (S754_zero false))
  /\ (forall v f,
        In (v, f) conversion_samples ->
        dict_get_default doc "min_amount" (PInt 0) = v ->
        fst (get_minimum_payment_amount w st) = Ret f)
  /\ (forall n,
        dict_get_default doc "min_amount" (PInt 0) = PInt n ->
        0 < Z.abs n < 2 ^ 53 ->
        exists m e,
          fst (get_minimum_payment_amount w st)
          = Ret (S754_finite (n <? 0) m e)
          /\ e <= 0
          /\ Zpos m = Z.abs n * 2 ^ (- e)).
Proof.
  intros Hsend Hst Hbody.
  rewrite (get_minimum_payment_amount_ok w st r doc Hsend
             (success_status_ok r Hst) Hbody).
  repeat split.
  - intros H. now rewrite (dict_get_absent _ _ _ H).
  - intros ->. vm_compute. reflexivity.
  - intros ->. reflexivity.
  - intros v f Hin ->. simpl. now apply conversion_samples_hold.
  - intros n -> Hn. simpl. now apply of_int_small.
Qed.

(** The two examples of the specification, an integer and a text with an
    exponent. *)
Lemma get_minimum_payment_amount_samples :
  fst (get_minimum_payment_amount
         (world_answering (Ret (ok [("min_amount", PStr "5.5")]))) fresh)
  = Ret (S754_finite false 6192449487634432 (-50))
  /\ fst (get_minimum_payment_amount (world_answering (Ret (ok []))) fresh)
     = Ret (S754_zero false)
  /\ fst (get_minimum_payment_amount
            (world_answering (Ret (ok [("min_amount", PInt 7)]))) fresh)
     = Ret (S754_finite false 7881299347898368 (-50))
  /\ fst (get_minimum_payment_amount
            (world_answering (Ret (ok [("min_amount", PStr "1e5")]))) fresh)
     = Ret (S754_finite false 6871947673600000 (-36)).
Proof.
  split; [|split; [|split]].
  - apply (get_minimum_payment_amount_converts
             (world_answering (Ret (ok [("min_amount", PStr "5.5")]))) fresh
             (ok [("min_amount", PStr "5.5")]) [("min_amount", PStr "5.5")]
             eq_refl ltac:(simpl; lia) eq_refl).
    reflexivity.
  - apply (get_minimum_payment_amount_converts
             (world_answering (Ret (ok []))) fresh (ok []) []
             eq_refl ltac:(simpl; lia) eq_refl).
    reflexivity.
  - apply (proj1 (proj2 (proj2 (proj2 (proj2
             (get_minimum_payment_amount_converts
                (world_answering (Ret (ok [("min_amount", PInt 7)]))) fresh
                (ok [("min_amount", PInt 7)]) [("min_amount", PInt 7)]
                eq_refl ltac:(simpl; lia) eq_refl)))))
             (PInt 7)).
    + unfold conversion_samples. simpl. tauto.
    + reflexivity.
  - apply (proj1 (proj2 (proj2 (proj2 (proj2
             (get_minimum_payment_amount_converts
                (world_answering (Ret (ok [("min_amount", PStr "1e5")])))
                fresh (ok [("min_amount", PStr "1e5")])
                [("min_amount", PStr "1e5")]
                eq_refl ltac:(simpl; lia) eq_refl)))))
             (PStr "1e5")).
    + unfold conversion_samples. simpl. tauto.
    + reflexivity.
Defined.

(** The float 5.5 is written [5.5], and zero [0.0]. *)
Lemma five_and_a_half_repr :
  PyFloat.repr five_and_a_half = "5.5"
  /\ PyFloat.repr (S754_zero false) = "0.0".
Proof. split; vm_compute; reflexivity. Qed.

(** C10: when the 2xx answer holds a [min_amount] string that does not
    denote a number, [get_minimum_payment_amount] raises the [ValueError]
    of [float]; it is not a [RequestException], so the [except] clause does
    not catch it: nothing is logged and the error is not wrapped. *)
Theorem get_minimum_payment_amount_value_error (w : World) (st : PyState)
  (r : Response) (doc : pydict) (s : string) :
  http_send w (min_amount_request st) = Ret r ->
  200 <= status_code r < 300 ->
  content r = Json (PDict doc) ->
  dict_get_default doc "min_amount" (PInt 0) = PStr s ->
  PyFloat.parse s = None ->
  get_minimum_payment_amount w st
  = (Raise (Exn ValueError ("could not convert string to float: " ++ str_repr s)),
     add_sent (min_amount_request st) st)
  /\ is_RequestException
       (Exn ValueError ("could not convert string to float: " ++ str_repr s))
     = false
  /\ log (snd (get_minimum_payment_amount w st)) = log st.
Proof.
  intros Hsend Hst Hbody Hget Hparse.
  rewrite (get_minimum_payment_amount_ok w st r doc Hsend
             (success_status_ok r Hst) Hbody).
  rewrite Hget. simpl. rewrite Hparse. repeat split.
Qed.

(** The answer [{"min_amount": "abc"}]. *)
Lemma get_minimum_payment_amount_abc :
  let w := world_answering (Ret (ok [("min_amount", PStr "abc")])) in
  get_minimum_payment_amount w fresh
  = (Raise (Exn ValueError "could not convert string to float: 'abc'"),
     add_sent (min_amount_request fresh) fresh).
Proof.
  cbv zeta.
  apply (get_minimum_payment_amount_value_error
           (world_answering (Ret (ok [("min_amount", PStr "abc")]))) fresh
           (ok [("min_amount", PStr "abc")]) [("min_amount", PStr "abc")] "abc"
           eq_refl ltac:(simpl; lia) eq_refl eq_refl eq_refl).
Defined.

(** ** The payment request *)

(** C6: for all [(amount, userId)], [create_payment] hands [requests] one
    call, a POST to [BASE_URL + "/payment"], whose JSON body holds
    [price_currency = "usd"], [pay_currency = "usdt"], the order id
    [deposit_{userId}_{timestamp}] with the clock's float as Python writes
    it (at each reference reading of the clock, the very text Python
    gives, a text that reads back as that float), and the three fixed
    callback URLs. *)
Theorem create_payment_request_body
  (price_amount : spec_float) (user_id : string) (w : World) (st : PyState) :
  exists req payload,
    sent (snd (create_payment price_amount user_id w st))
    = (sent st ++ [req])%list
    /\ req_method req = POST
    /\ req_url req = BASE_URL st ++ "/payment"
    /\ req_json req = Some (PDict payload)
    /\ dict_get payload "price_currency" = PStr "usd"
    /\ dict_get payload "pay_currency" = PStr "usdt"
    /\ dict_get payload "order_id"
       = PStr ("deposit_" ++ user_id ++ "_" ++ PyFloat.repr (now_timestamp w))
    /\ dict_get payload "ipn_callback_url"
       = PStr "https://your-domain.com/nowpayments/callback"
    /\ dict_get payload "success_url"
       = PStr "https://your-domain.com/deposit/success"
    /\ dict_get payload "cancel_url"
       = PStr "https://your-domain.com/deposit/cancel"
    /\ (forall f text,
          In (f, text) timestamp_samples ->
          now_timestamp w = f ->
          dict_get payload "order_id"
          = PStr ("deposit_" ++ user_id ++ "_" ++ text)
          /\ PyFloat.parse text = Some f).
Proof.
  eexists (payment_request st w price_amount user_id), _.
  rewrite create_payment_run.
  split; [|repeat split].
  - unfold log_and_reraise.
    destruct (checked_json _) as [v|e]; [reflexivity|].
    destruct (is_RequestException e); reflexivity.
  - destruct (timestamp_samples_hold f text H) as [Hrepr _].
    unfold dict_get. simpl. unfold order_id_of. now rewrite H0, Hrepr.
  - now destruct (timestamp_samples_hold f text H) as [_ Hparse].
Qed.

(** The clock at 1700000000.0 and at 1742481046.223. *)
Lemma create_payment_request_body_samples :
  (exists req payload,
     sent (snd (create_payment ten "abc123" offline fresh)) = [req]
     /\ req_json req = Some (PDict payload)
     /\ dict_get payload "order_id" = PStr "deposit_abc123_1700000000.0")
  /\ (exists req payload,
        sent (snd (create_payment ten "abc123"
                     {| http_send := http_send offline;
                        now_timestamp :=
                          S754_finite false 7308495222097314 (-22);
                        now_isoformat := "2025-03-20T14:30:46.223000" |}
                     fresh))
        = [req]
        /\ req_json req = Some (PDict payload)
        /\ dict_get payload "order_id"
           = PStr "deposit_abc123_1742481046.223").
Proof.
  split.
  - destruct (create_payment_request_body ten "abc123" offline fresh)
      as [req [payload [Hs [_ [_ [Hj [_ [_ [_ [_ [_ [_ Ht]]]]]]]]]]]].
    exists req, payload. split; [exact Hs|]. split; [exact Hj|].
    apply (Ht (S754_finite false 7130316800000000 (-22)) "1700000000.0").
    + unfold timestamp_samples. simpl. tauto.
    + vm_compute. reflexivity.
  - destruct (create_payment_request_body ten "abc123"
                {| http_send := http_send offline;
                   now_timestamp := S754_finite false 7308495222097314 (-22);
                   now_isoformat := "2025-03-20T14:30:46.223000" |}
                fresh)
      as [req [payload [Hs [_ [_ [Hj [_ [_ [_ [_ [_ [_ Ht]]]]]]]]]]]].
    exists req, payload. split; [exact Hs|]. split; [exact Hj|].
    apply (Ht (S754_finite false 7308495222097314 (-22)) "1742481046.223").
    + unfold timestamp_samples. simpl. tauto.
    + reflexivity.
Defined.

(** With the clock at 1700000000.0, user [abc123] gets the order id
    [deposit_abc123_1700000000.0], sent to the service's payment URL. *)
Lemma create_payment_request_sample :
  sent (snd (create_payment ten "abc123" offline fresh))
  = [payment_request fresh offline ten "abc123"]
  /\ req_url (payment_request fresh offline ten "abc123")
     = "https://api.nowpayments.io/v1/payment"
  /\ order_id_of "abc123" (now_timestamp offline)
     = "deposit_abc123_1700000000.0".
Proof. repeat split; vm_compute; reflexivity. Qed.

(** ** The client configuration is read-only *)

Create HintDb frame.

Lemma keeps_ret {A : Type} (a : A) : keeps_configuration (ret a).
Proof. intros w st. reflexivity. Qed.

Lemma keeps_raise {A : Type} (e : exn) : keeps_configuration (@raise A e).
Proof. intros w st. reflexivity. Qed.

Lemma keeps_lift {A : Type} (r : result A) : keeps_configuration (lift r).
Proof. intros w st. reflexivity. Qed.

Lemma keeps_get_state : keeps_configuration get_state.
Proof. intros w st. reflexivity. Qed.

Lemma keeps_now_timestamp : keeps_configuration datetime_now_timestamp.
Proof. intros w st. reflexivity. Qed.

Lemma keeps_now_isoformat : keeps_configuration datetime_now_isoformat.
Proof. intros w st. reflexivity. Qed.

Lemma keeps_logger_error (msg : string) : keeps_configuration (logger_error msg).
Proof. intros w st. reflexivity. Qed.

Lemma keeps_requests_post (u : string) (j : pyval) (h : list (string * string)) :
  keeps_configuration (requests_post u j h).
Proof. intros w st. reflexivity. Qed.

Lemma keeps_requests_get (u : string) (p h : list (string * string)) :
  keeps_configuration (requests_get u p h).
Proof. intros w st. reflexivity. Qed.

Lemma keeps_raise_for_status (r : Response) :
  keeps_configuration (raise_for_status r).
Proof.
  unfold raise_for_status. destruct (http_error_msg r);
    [apply keeps_raise | apply keeps_ret].
Qed.

Lemma keeps_response_json (r : Response) :
  keeps_configuration (response_json r).
Proof.
  unfold response_json. destruct (content r);
    [apply keeps_ret | apply keeps_raise].
Qed.

Lemma keeps_bind {A B : Type} (m : M A) (k : A -> M B) :
  keeps_configuration m ->
  (forall a, keeps_configuration (k a)) ->
  keeps_configuration (bind m k).
Proof.
  intros Hm Hk w st. unfold bind.
  specialize (Hm w st). destruct (m w st) as [[a|e] st']; simpl in Hm.
  - now rewrite Hk.
  - exact Hm.
Qed.

Lemma keeps_try_except {A : Type}
  (m : M A) (catches : exn -> bool) (handler : exn -> M A) :
  keeps_configuration m ->
  (forall e, keeps_configuration (handler e)) ->
  keeps_configuration (try_except m catches handler).
Proof.
  intros Hm Hh w st. unfold try_except.
  specialize (Hm w st). destruct (m w st) as [[a|e] st']; simpl in Hm.
  - exact Hm.
  - destruct (catches e); [now rewrite Hh | exact Hm].
Qed.

Lemma keeps_if {A : Type} (b : bool) (m1 m2 : M A) :
  keeps_configuration m1 -> keeps_configuration m2 ->
  keeps_configuration (if b then m1 else m2).
Proof. destruct b; auto. Qed.

#[local] Hint Resolve keeps_ret keeps_raise keeps_lift keeps_get_state
  keeps_now_timestamp keeps_now_isoformat keeps_logger_error
  keeps_requests_post keeps_requests_get keeps_raise_for_status
  keeps_response_json keeps_if : frame.

Ltac frame :=
  repeat first
    [ solve [auto with frame]
    | apply keeps_try_except
    | apply keeps_bind
    | intro ].

Lemma keeps_create_payment (a : spec_float) (u : string) :
  keeps_configuration (create_payment a u).
Proof. unfold create_payment. frame. Qed.

Lemma keeps_create_withdrawal (addr : string) (a : spec_float) (u : string) :
  keeps_configuration (create_withdrawal addr a u).
Proof. unfold create_withdrawal. frame. Qed.

Lemma keeps_get_payment_status (pid : string) :
  keeps_configuration (get_payment_status pid).
Proof. unfold get_payment_status. frame. Qed.

Lemma keeps_get_minimum_payment_amount :
  keeps_configuration get_minimum_payment_amount.
Proof. unfold get_minimum_payment_amount. frame. Qed.

Lemma keeps_verify_callback (d : pydict) :
  keeps_configuration (verify_callback d).
Proof. unfold verify_callback. frame. Qed.

Lemma keeps_process_callback (d : pydict) :
  keeps_configuration (process_callback d).
Proof. unfold process_callback. frame. Qed.

(** [__init__] is the one method that writes the configuration. *)
Lemma init_writes_configuration :
  ~ keeps_configuration (__init__ "secret").
Proof.
  intros H.
  specialize (H offline
                {| BASE_URL := class_BASE_URL;
                   self := {| api_key := ""; headers := [] |};
                   log := []; sent := [] |}).
  discriminate H.
Qed.

Lemma perform_keeps (c : call) (w : World) (st : PyState) :
  configuration (perform c w st) = configuration st.
Proof.
  destruct c; simpl.
  - apply keeps_create_payment.
  - apply keeps_create_withdrawal.
  - apply keeps_get_payment_status.
  - apply keeps_get_minimum_payment_amount.
  - apply keeps_verify_callback.
  - apply keeps_process_callback.
Qed.

Lemma perform_all_keeps (calls : list (call * World)) (st : PyState) :
  configuration (perform_all calls st) = configuration st.
Proof.
  revert st. induction calls as [|[c w] calls IH]; intros st; simpl.
  - reflexivity.
  - unfold perform_all in IH. rewrite IH. apply perform_keeps.
Qed.

(** C8: each of the six operations leaves [BASE_URL], [api_key] and
    [headers] as they were, so after any session the client, built by
    [__init__] with key [key], still has the configuration of its
    construction. *)
Theorem configuration_is_read_only
  (key : string) (w0 : World) (calls : list (call * World)) :
  (forall c w st,
     BASE_URL (perform c w st) = BASE_URL st
     /\ api_key (self (perform c w st)) = api_key (self st)
     /\ headers (self (perform c w st)) = headers (self st))
  /\ BASE_URL (perform_all calls (loaded key w0))
     = "https://api.nowpayments.io/v1"
  /\ api_key (self (perform_all calls (loaded key w0))) = key
  /\ headers (self (perform_all calls (loaded key w0)))
     = [("x-api-key", key); ("Content-Type", "application/json")].
Proof.
  split.
  - intros c w st. pose proof (perform_keeps c w st) as H.
    unfold configuration in H. injection H as H1 H2.
    rewrite H1, H2. auto.
  - pose proof (perform_all_keeps calls (loaded key w0)) as H.
    unfold configuration in H. injection H as H1 H2.
    rewrite H1, H2. auto.
Qed.

(** * Further properties of the operations *)

(** ** What is left of the state *)

Lemma log_and_reraise_sent {A : Type} (what : string)
  (x : result A) (st : PyState) :
  sent (snd (log_and_reraise what (x, st))) = sent st.
Proof.
  unfold log_and_reraise. destruct x as [a|e]; [reflexivity|].
  destruct (is_RequestException e); reflexivity.
Qed.

Lemma log_and_reraise_log {A : Type} (what : string)
  (x : result A) (st : PyState) :
  log (snd (log_and_reraise what (x, st)))
  = (log st
     ++ match fst (log_and_reraise what (x, st)) with
        | Raise e =>
            if is_RequestException e
            then [String.append what (exn_str e)] else []
        | Ret _ => []
        end)%list.
Proof.
  unfold log_and_reraise. destruct x as [a|e]; simpl.
  - now rewrite app_nil_r.
  - destruct (is_RequestException e) eqn:He; simpl; rewrite He;
      [reflexivity | now rewrite app_nil_r].
Qed.

(** The whole of [process_callback]. *)
Lemma process_callback_run (d : pydict) (w : World) (st : PyState) :
  process_callback d w st
  = if truthy (dict_get d "order_id") && truthy (dict_get d "payment_status")
    then
      match extract_user_id (dict_get d "order_id") with
      | Ret user_id =>
          (Ret (PDict
                  [("user_id", PStr user_id);
                   ("status", dict_get d "payment_status");
                   ("amount", dict_get d "actually_paid");
                   ("currency", dict_get d "pay_currency");
                   ("timestamp", dict_get d "created_at")]),
           st)
      | Raise e =>
          (Raise e, add_log ("Error processing callback data: " ++ exn_str e) st)
      end
    else
      (Raise (Exn ValueError "Invalid callback data"),
       add_log "Error processing callback data: Invalid callback data" st).
Proof.
  destruct (truthy (dict_get d "order_id")
            && truthy (dict_get d "payment_status")) eqn:H.
  - apply andb_true_iff in H as [Ho Hp].
    now apply process_callback_accepts.
  - now apply process_callback_rejects.
Qed.

Lemma verify_after_key_sent (w : World) (st : PyState) (key_text : string) :
  sent (snd (verify_after_key w st key_text))
  = (sent st ++ [verification_request st key_text])%list.
Proof.
  unfold verify_after_key.
  destruct (match checked_json _ with Ret v => confirmed v | Raise e => Raise e end)
    as [b|e]; [reflexivity|].
  destruct (is_RequestException e); reflexivity.
Qed.

Lemma verify_callback_sent (d : pydict) (w : World) (st : PyState) :
  sent (snd (verify_callback d w st))
  = (sent st ++ requests_of (VerifyCallback d) w st)%list.
Proof.
  rewrite verify_callback_run. simpl.
  destruct (py_str (dict_get d "verification_key")) as [key_text|e].
  - apply verify_after_key_sent.
  - destruct (is_RequestException e); simpl; now rewrite app_nil_r.
Qed.

Lemma process_callback_sent (d : pydict) (w : World) (st : PyState) :
  sent (snd (process_callback d w st)) = sent st.
Proof.
  rewrite process_callback_run.
  destruct (truthy _ && truthy _); [|reflexivity].
  destruct (extract_user_id _); reflexivity.
Qed.

Lemma perform_sent (c : call) (w : World) (st : PyState) :
  sent (perform c w st) = (sent st ++ requests_of c w st)%list.
Proof.
  destruct c; simpl.
  - now rewrite create_payment_run, log_and_reraise_sent.
  - now rewrite create_withdrawal_run, log_and_reraise_sent.
  - now rewrite get_payment_status_run, log_and_reraise_sent.
  - now rewrite get_minimum_payment_amount_run, log_and_reraise_sent.
  - apply verify_callback_sent.
  - rewrite process_callback_sent. now rewrite app_nil_r.
Qed.

(** ** Failures of the transport *)

(** X1: when [requests] itself raises a [RequestException] (no connection,
    a timeout, too many redirects), each of [create_payment],
    [create_withdrawal], [get_payment_status] and
    [get_minimum_payment_amount] logs one line with its text and re-raises
    the same exception; there is no retry, the call was handed over once. *)
Theorem network_failure_is_reraised (w : World) (st : PyState) (e : exn) :
  is_RequestException e = true ->
  (forall a u,
     http_send w (payment_request st w a u) = Raise e ->
     create_payment a u w st
     = (Raise e,
        add_log ("Error creating payment: " ++ exn_str e)
          (add_sent (payment_request st w a u) st)))
  /\ (forall addr a u,
        http_send w (withdrawal_request st w addr a u) = Raise e ->
        create_withdrawal addr a u w st
        = (Raise e,
           add_log ("Error creating withdrawal: " ++ exn_str e)
             (add_sent (withdrawal_request st w addr a u) st)))
  /\ (forall pid,
        http_send w (status_request st pid) = Raise e ->
        get_payment_status pid w st
        = (Raise e,
           add_log ("Error getting payment status: " ++ exn_str e)
             (add_sent (status_request st pid) st)))
  /\ (http_send w (min_amount_request st) = Raise e ->
      get_minimum_payment_amount w st
      = (Raise e,
         add_log ("Error getting minimum payment amount: " ++ exn_str e)
           (add_sent (min_amount_request st) st))).
Proof.
  intros He. repeat split.
  - intros a u H. rewrite create_payment_run, H. simpl. now rewrite He.
  - intros addr a u H. rewrite create_withdrawal_run, H. simpl. now rewrite He.
  - intros pid H. rewrite get_payment_status_run, H. simpl. now rewrite He.
  - intros H. rewrite get_minimum_payment_amount_run, H. simpl. now rewrite He.
Qed.

(** The four operations with the service out of reach. *)
Lemma network_failure_offline :
  let e := Exn ConnectionError "Connection refused" in
  fst (create_payment ten "abc123" offline fresh) = Raise e
  /\ fst (create_withdrawal "TXYZ" ten "abc123" offline fresh) = Raise e
  /\ fst (get_payment_status "5745459419" offline fresh) = Raise e
  /\ get_minimum_payment_amount offline fresh
     = (Raise e,
        add_log "Error getting minimum payment amount: Connection refused"
          (add_sent (min_amount_request fresh) fresh)).
Proof.
  cbv zeta.
  destruct (network_failure_is_reraised offline fresh
              (Exn ConnectionError "Connection refused") eq_refl)
    as [H1 [H2 [H3 H4]]].
  rewrite (H1 ten "abc123" eq_refl), (H2 "TXYZ" ten "abc123" eq_refl),
    (H3 "5745459419" eq_refl), (H4 eq_refl).
  repeat split.
Defined.



(** ** Answers that are not errors *)

(** X3: when the answer has a status outside 400..599 and a body that
    decodes, [create_payment], [create_withdrawal] and
    [get_payment_status] return the decoded document as it is, whatever
    its shape (object, list, number, null), and log nothing. *)
Theorem json_document_is_returned
  (w : World) (st : PyState) (r : Response) (v : pyval) :
  ~ 400 <= status_code r < 600 ->
  content r = Json v ->
  (forall a u,
     http_send w (payment_request st w a u) = Ret r ->
     create_payment a u w st
     = (Ret v, add_sent (payment_request st w a u) st))
  /\ (forall addr a u,
        http_send w (withdrawal_request st w addr a u) = Ret r ->
        create_withdrawal addr a u w st
        = (Ret v, add_sent (withdrawal_request st w addr a u) st))
  /\ (forall pid,
        http_send w (status_request st pid) = Ret r ->
        get_payment_status pid w st
        = (Ret v, add_sent (status_request st pid) st)).
Proof.
  intros Hst Hbody. apply http_ok_status in Hst. repeat split.
  - intros a u H. rewrite create_payment_run, H.
    unfold checked_json. now rewrite Hst, Hbody.
  - intros addr a u H. rewrite create_withdrawal_run, H.
    unfold checked_json. now rewrite Hst, Hbody.
  - intros pid H. rewrite get_payment_status_run, H.
    unfold checked_json. now rewrite Hst, Hbody.
Qed.

(** A payment status, and an answer that is a bare list. *)
Lemma json_document_is_returned_samples :
  fst (get_payment_status "5745459419"
         (world_answering (Ret (ok [("payment_status", PStr "waiting")])))
         fresh)
  = Ret (PDict [("payment_status", PStr "waiting")])
  /\ fst (create_payment ten "abc123"
            (world_answering (Ret (response_with 201 "Created" (Json (PList [])))))
            fresh)
     = Ret (PList []).
Proof.
  split.
  - destruct (json_document_is_returned
                (world_answering (Ret (ok [("payment_status", PStr "waiting")])))
                fresh (ok [("payment_status", PStr "waiting")])
                (PDict [("payment_status", PStr "waiting")])
                ltac:(simpl; lia) eq_refl) as [_ [_ H]].
    now rewrite (H "5745459419" eq_refl).
  - destruct (json_document_is_returned
                (world_answering
                   (Ret (response_with 201 "Created" (Json (PList [])))))
                fresh (response_with 201 "Created" (Json (PList [])))
                (PList []) ltac:(simpl; lia) eq_refl) as [H _].
    now rewrite (H ten "abc123" eq_refl).
Defined.

(** ** The requests that are built *)

(** X4: [create_withdrawal] hands [requests] one call, a POST to
    [BASE_URL + "/payout"] with the headers of the client, whose JSON body
    is a batch of exactly one withdrawal: the address and the amount given,
    the currency ["usdt"], the fixed payout callback URL, and a payload
    with the user id and the clock's ISO-8601 text. *)
Theorem create_withdrawal_request_body
  (address : string) (amount : spec_float) (user_id : string)
  (w : World) (st : PyState) :
  exists req entry,
    sent (snd (create_withdrawal address amount user_id w st))
    = (sent st ++ [req])%list
    /\ req_method req = POST
    /\ req_url req = BASE_URL st ++ "/payout"
    /\ req_params req = []
    /\ req_headers req = headers (self st)
    /\ req_json req = Some (PDict [("withdrawals", PList [PDict entry])])
    /\ dict_get entry "address" = PStr address
    /\ dict_get entry "currency" = PStr "usdt"
    /\ dict_get entry "amount" = PFloat amount
    /\ dict_get entry "ipn_callback_url"
       = PStr "https://your-domain.com/nowpayments/payout-callback"
    /\ dict_get entry "payload"
       = PDict [("user_id", PStr user_id);
                ("timestamp", PStr (now_isoformat w))].
Proof.
  eexists (withdrawal_request st w address amount user_id), _.
  split; [|repeat split].
  now rewrite create_withdrawal_run, log_and_reraise_sent.
Qed.



(** ** Sessions *)

Lemma prefix_append (p s : string) : String.prefix p (p ++ s) = true.
Proof.
  induction p as [|c p IH]; simpl.
  - now destruct s.
  - destruct (ascii_dec c c); [exact IH | contradiction].
Qed.

(** Every request of a call carries the headers of the client and
    addresses a path under [BASE_URL]. *)
Lemma requests_of_client (c : call) (w : World) (st : PyState) :
  Forall
    (fun req =>
       req_headers req = headers (self st)
       /\ String.prefix (BASE_URL st ++ "/") (req_url req) = true)
    (requests_of c w st).
Proof.
  assert (H : forall path, String.prefix (BASE_URL st ++ "/")
                             (BASE_URL st ++ String "/"%char path) = true).
  { intros path.
    replace (BASE_URL st ++ String "/"%char path)
      with ((BASE_URL st ++ "/") ++ path).
    - apply prefix_append.
    - induction (BASE_URL st) as [|a b IH]; simpl; [reflexivity|].
      now rewrite IH. }
  destruct c; simpl;
    try destruct (py_str (dict_get ipn_data "verification_key"));
    try apply Forall_nil;
    (apply Forall_cons; [split; [reflexivity | apply H] | apply Forall_nil]).
Qed.

Lemma loaded_configuration (key : string) (w : World) :
  configuration (loaded key w)
  = (class_BASE_URL, {| api_key := key; headers := headers_for key |}).
Proof. reflexivity. Qed.

Lemma session_authorized (key : string) (w0 : World)
  (calls : list (call * World)) (st : PyState) :
  configuration st = configuration (loaded key w0) ->
  Forall (authorized key) (sent st) ->
  Forall (authorized key) (sent (perform_all calls st)).
Proof.
  revert st. induction calls as [|[c w] calls IH]; intros st Hc Hs.
  - exact Hs.
  - simpl. apply IH.
    + now rewrite perform_keeps.
    + rewrite perform_sent. apply Forall_app. split; [exact Hs|].
      pose proof (requests_of_client c w st) as H.
      rewrite loaded_configuration in Hc. unfold configuration in Hc.
      injection Hc as Hb Hself. rewrite Hb, Hself in H.
      eapply Forall_impl; [|exact H].
      intros req [Hh Hu]. split; [exact Hh | exact Hu].
Qed.

(** X6: in any session of a client built by [__init__] with key [key],
    every call handed to [requests] carries the headers
    [x-api-key: key] and [Content-Type: application/json] and goes to a
    URL under [https://api.nowpayments.io/v1/]: no operation sends a
    request without the key or to another host. *)
Theorem session_requests_authorized
  (key : string) (w0 : World) (calls : list (call * World)) :
  Forall
    (fun req =>
       req_headers req
       = [("x-api-key", key); ("Content-Type", "application/json")]
       /\ String.prefix "https://api.nowpayments.io/v1/" (req_url req) = true)
    (sent (perform_all calls (loaded key w0))).
Proof.
  apply (session_authorized key w0 calls (loaded key w0) eq_refl).
  constructor.
Qed.


(** X8: the log tells the errors apart from the successes.  Each of the
    four re-raising operations logs exactly one line, its prefix and the
    text of the exception, when it ends with a [RequestException], and
    nothing when it returns or ends with another exception;
    [process_callback] logs one such line for every exception it ends
    with, and nothing when it returns. *)
Theorem errors_are_logged
  (a : spec_float) (u addr pid : string) (d : pydict) :
  logs_its_errors "Error creating payment: " is_RequestException
    (create_payment a u)
  /\ logs_its_errors "Error creating withdrawal: " is_RequestException
       (create_withdrawal addr a u)
  /\ logs_its_errors "Error getting payment status: " is_RequestException
       (get_payment_status pid)
  /\ logs_its_errors "Error getting minimum payment amount: "
       is_RequestException get_minimum_payment_amount
  /\ logs_its_errors "Error processing callback data: " is_Exception
       (process_callback d).
Proof.
  unfold logs_its_errors. repeat split; intros w st.
  - rewrite create_payment_run, log_and_reraise_log. reflexivity.
  - rewrite create_withdrawal_run, log_and_reraise_log. reflexivity.
  - rewrite get_payment_status_run, log_and_reraise_log. reflexivity.
  - rewrite get_minimum_payment_amount_run, log_and_reraise_log. reflexivity.
  - rewrite process_callback_run.
    destruct (truthy _ && truthy _); [|reflexivity].
    destruct (extract_user_id _); simpl; [now rewrite app_nil_r|reflexivity].
Qed.

(** ** More on callbacks and order ids *)

Lemma split_tokens_no_sep (sep : ascii) (s : string) :
  Forall (fun tok => contains sep tok = false) (split sep s).
Proof.
  induction s as [|c s IH]; simpl.
  - repeat constructor.
  - destruct (Ascii.eqb c sep) eqn:Hc.
    + constructor; [reflexivity | exact IH].
    + destruct (split sep s) as [|tok rest].
      * constructor; [simpl; now rewrite Hc | constructor].
      * inversion IH as [|? ? Htok Hrest]; subst.
        constructor; [simpl; now rewrite Hc, Htok | exact Hrest].
Qed.

Lemma split_second (sep : ascii) (s : string) :
  contains sep s = true ->
  exists tok, nth_error (split sep s) 1 = Some tok.
Proof.
  induction s as [|c s IH]; simpl; [discriminate|].
  destruct (Ascii.eqb c sep) eqn:Hc; simpl.
  - intros _. destruct (split sep s) as [|tok rest] eqn:Hs.
    + now apply split_nonempty in Hs.
    + now exists tok.
  - intros H. destruct (IH H) as [tok Htok].
    destruct (split sep s) as [|t0 rest]; [discriminate|].
    now exists tok.
Qed.

Lemma contains_nonempty (c : ascii) (s : string) :
  contains c s = true -> s <> "".
Proof. destruct s; [discriminate | discriminate]. Qed.

(** The tokens [split('_')[1]] can return. *)
Lemma extract_user_id_ret (v : pyval) (user_id : string) :
  extract_user_id v = Ret user_id ->
  exists s,
    v = PStr s /\ contains underscore s = true
    /\ contains underscore user_id = false.
Proof.
  unfold extract_user_id, method_split, list_index.
  destruct v; try discriminate.
  intros H. exists s. split; [reflexivity|].
  destruct (nth_error (split underscore s) 1) as [tok|] eqn:Hn;
    [|discriminate].
  injection H as ->. split.
  - destruct (contains underscore s) eqn:Hc; [reflexivity|].
    rewrite (split_no_sep _ _ Hc) in Hn. discriminate.
  - pose proof (split_tokens_no_sep underscore s) as Hall.
    rewrite Forall_forall in Hall. apply Hall.
    eapply nth_error_In. exact Hn.
Qed.

(** X9: [process_callback] returns a record exactly when [order_id] is a
    string with at least one underscore and [payment_status] is truthy; in
    every other case it raises. *)
Theorem process_callback_returns_iff
  (d : pydict) (w : World) (st : PyState) :
  (exists v, fst (process_callback d w st) = Ret v)
  <-> exists s,
        dict_get d "order_id" = PStr s
        /\ contains underscore s = true
        /\ truthy (dict_get d "payment_status") = true.
Proof.
  rewrite process_callback_run. split.
  - intros [v H].
    destruct (truthy (dict_get d "order_id")) eqn:Ho;
      [|discriminate].
    destruct (truthy (dict_get d "payment_status")) eqn:Hp;
      [|discriminate].
    simpl in H.
    destruct (extract_user_id (dict_get d "order_id")) as [u|e] eqn:Hx;
      [|discriminate].
    apply extract_user_id_ret in Hx as [s [Hs [Hc _]]].
    exists s. auto.
  - intros [s [Hs [Hc Hp]]].
    rewrite Hs, Hp, (truthy_str s (contains_nonempty _ _ Hc)). simpl.
    unfold extract_user_id, method_split, list_index.
    destruct (split_second underscore s Hc) as [tok Htok].
    rewrite Htok. eexists. reflexivity.
Qed.

(** X10: the [user_id] of a record returned by [process_callback] is a
    string without underscore. *)
Theorem process_callback_user_id_plain
  (d : pydict) (w : World) (st : PyState) (v : pyval) :
  fst (process_callback d w st) = Ret v ->
  exists out user_id,
    v = PDict out
    /\ dict_get out "user_id" = PStr user_id
    /\ contains underscore user_id = false.
Proof.
  rewrite process_callback_run.
  destruct (truthy _ && truthy _); [|discriminate].
  destruct (extract_user_id (dict_get d "order_id")) as [u|e] eqn:Hx;
    [|discriminate].
  intros H. injection H as <-.
  apply extract_user_id_ret in Hx as [s [_ [_ Hu]]].
  eexists _, u. repeat split. exact Hu.
Qed.

(** The record of the sample callback names [abc123]. *)
Lemma process_callback_user_id_sample :
  exists out user_id,
    PDict
      [("user_id", PStr "abc123");
       ("status", PStr "finished");
       ("amount", PStr "10.0");
       ("currency", PStr "usdt");
       ("timestamp", PStr "2023-11-14T00:00:00Z")]
    = PDict out
    /\ dict_get out "user_id" = PStr user_id
    /\ contains underscore user_id = false.
Proof.
  apply (process_callback_user_id_plain sample_callback offline fresh).
  reflexivity.
Defined.

(** X11: an [order_id] that is truthy but not a string (a JSON number, a
    list, an object) has no [split]: [process_callback] logs and re-raises
    the [AttributeError], not the [ValueError] of the presence check. *)
Theorem process_callback_order_id_not_str
  (d : pydict) (w : World) (st : PyState) :
  truthy (dict_get d "order_id") = true ->
  (forall s, dict_get d "order_id" <> PStr s) ->
  truthy (dict_get d "payment_status") = true ->
  process_callback d w st
  = (Raise (Exn AttributeError
              ("'" ++ type_name (dict_get d "order_id")
               ++ "' object has no attribute 'split'")),
     add_log
       ("Error processing callback data: '"
        ++ type_name (dict_get d "order_id")
        ++ "' object has no attribute 'split'")
       st).
Proof.
  intros Ho Hns Hp. rewrite process_callback_run, Ho, Hp. simpl.
  unfold extract_user_id, method_split.
  destruct (dict_get d "order_id"); try reflexivity.
  now elim (Hns s).
Qed.

(** The order id sent as the number 1700000000. *)
Lemma process_callback_order_id_number :
  process_callback
    [("order_id", PInt 1700000000); ("payment_status", PStr "finished")]
    offline fresh
  = (Raise (Exn AttributeError "'int' object has no attribute 'split'"),
     add_log
       "Error processing callback data: 'int' object has no attribute 'split'"
       fresh).
Proof.
  apply (process_callback_order_id_not_str
           [("order_id", PInt 1700000000); ("payment_status", PStr "finished")]
           offline fresh);
    [reflexivity | discriminate | reflexivity].
Defined.

(** X12: when the user id of a deposit holds an underscore,
    [process_callback] does not fail: it returns a record whose [user_id]
    is the part of the user id before its first underscore. *)
Theorem process_callback_truncates_user_id
  (d : pydict) (before rest : string) (timestamp : spec_float)
  (w : World) (st : PyState) :
  contains underscore before = false ->
  dict_get d "order_id"
  = PStr (order_id_of (before ++ "_" ++ rest) timestamp) ->
  truthy (dict_get d "payment_status") = true ->
  exists out,
    process_callback d w st = (Ret (PDict out), st)
    /\ dict_get out "user_id" = PStr before.
Proof.
  intros Hb Ho Hp.
  rewrite process_callback_accepts; [|rewrite Ho; reflexivity|exact Hp].
  rewrite Ho. unfold order_id_of. rewrite extract_deposit.
  replace ((before ++ "_" ++ rest) ++ "_" ++ PyFloat.repr timestamp)
    with (before ++ String underscore (rest ++ "_" ++ PyFloat.repr timestamp)).
  - rewrite (split_app_sep _ _ _ Hb). simpl hd. eexists. split; reflexivity.
  - clear. induction before as [|c b IH]; [reflexivity|].
    simpl. f_equal. exact IH.
Qed.

(** The deposit of [john_doe] is reported as a payment of [john]. *)
Lemma process_callback_truncates_john_doe :
  exists out,
    process_callback
      [("order_id", PStr (order_id_of "john_doe" (now_timestamp offline)));
       ("payment_status", PStr "finished")]
      offline fresh
    = (Ret (PDict out), fresh)
    /\ dict_get out "user_id" = PStr "john".
Proof.
  apply (process_callback_truncates_user_id
           [("order_id", PStr (order_id_of "john_doe" (now_timestamp offline)));
            ("payment_status", PStr "finished")]
           "john" "doe" (now_timestamp offline) offline fresh);
    reflexivity.
Defined.

(** X13: two different user ids without underscore never get the same
    order id, whatever the two timestamps. *)
Theorem order_ids_differ (u1 u2 : string) (t1 t2 : spec_float) :
  contains underscore u1 = false ->
  contains underscore u2 = false ->
  u1 <> u2 ->
  order_id_of u1 t1 <> order_id_of u2 t2.
Proof.
  intros H1 H2 Hne Heq.
  pose proof (extract_order_id u1 t1 H1) as E1.
  pose proof (extract_order_id u2 t2 H2) as E2.
  rewrite Heq, E2 in E1. injection E1 as E. now apply Hne.
Qed.

Lemma order_ids_differ_alice_bob :
  order_id_of "alice" ten <> order_id_of "bob" ten.
Proof.
  apply (order_ids_differ "alice" "bob" ten ten);
    [reflexivity | reflexivity | discriminate].
Defined.

(** X14: [process_callback] reads five keys and no other: two callbacks
    that agree on [payment_status], [order_id], [actually_paid],
    [pay_currency] and [created_at] get the same outcome, whatever else
    they hold. *)
Theorem process_callback_reads_five_keys
  (d1 d2 : pydict) (w : World) (st : PyState) :
  (forall key, In key callback_keys -> dict_get d1 key = dict_get d2 key) ->
  process_callback d1 w st = process_callback d2 w st.
Proof.
  intros H. rewrite !process_callback_run.
  rewrite (H "payment_status"), (H "order_id"), (H "actually_paid"),
    (H "pay_currency"), (H "created_at"); simpl; auto 10.
Qed.

(** The sample callback with a payment id and a signature added. *)
Lemma process_callback_reads_five_keys_sample :
  process_callback
    (("payment_id", PInt 5745459419) :: sample_callback
     ++ [("signature", PStr "c0ffee")])%list
    offline fresh
  = process_callback sample_callback offline fresh.
Proof.
  apply (process_callback_reads_five_keys
           (("payment_id", PInt 5745459419) :: sample_callback
            ++ [("signature", PStr "c0ffee")])%list
           sample_callback offline fresh).
  intros key [<-|[<-|[<-|[<-|[<-|[]]]]]]; reflexivity.
Defined.

(** A deposit of [abc123], paid and reported back. *)
Lemma deposit_round_trip_sample :
  process_callback
    [("order_id", PStr (order_id_of "abc123" (now_timestamp offline)));
     ("payment_status", PStr "finished")]
    offline fresh
  = (Ret (PDict
            [("user_id", PStr "abc123");
             ("status", PStr "finished");
             ("amount", PNone);
             ("currency", PNone);
             ("timestamp", PNone)]),
     fresh).
Proof.
  apply (deposit_round_trip ten "abc123" (PStr "finished")
           offline offline fresh fresh
           [("price_amount", PFloat ten);
            ("price_currency", PStr "usd");
            ("pay_currency", PStr "usdt");
            ("order_id", PStr (order_id_of "abc123" (now_timestamp offline)));
            ("order_description", PStr "Deposit for user abc123");
            ("ipn_callback_url",
             PStr "https://your-domain.com/nowpayments/callback");
            ("success_url", PStr "https://your-domain.com/deposit/success");
            ("cancel_url", PStr "https://your-domain.com/deposit/cancel")]);
    reflexivity.
Defined.

(** ** More on verification and the minimum amount *)

(** X15: a callback without [verification_key] is not rejected before the
    network: [.get] gives [None], the f-string writes it as [None], and
    [verify_callback] sends [GET BASE_URL/payment-verification/None]. *)
Theorem verify_callback_without_key
  (ipn_data : pydict) (w : World) (st : PyState) :
  dict_mem ipn_data "verification_key" = false ->
  sent (snd (verify_callback ipn_data w st))
  = (sent st
     ++ [get_request (BASE_URL st ++ "/payment-verification/None") []
           (headers (self st))])%list.
Proof.
  intros H.
  assert (Hkey : py_str (dict_get ipn_data "verification_key") = Ret "None").
  { unfold dict_get. now rewrite (dict_get_absent _ _ _ H). }
  rewrite (verify_callback_rendered _ w st "None" Hkey).
  apply verify_after_key_sent.
Qed.

Lemma verify_callback_empty_callback :
  sent (snd (verify_callback [] offline fresh))
  = [get_request "https://api.nowpayments.io/v1/payment-verification/None" []
       [("x-api-key", "secret"); ("Content-Type", "application/json")]].
Proof.
  apply (verify_callback_without_key [] offline fresh). reflexivity.
Defined.

(** X16: no [RequestException] leaves [verify_callback]: an exception it
    ends with is of another class, and then nothing was logged. *)
Theorem verify_callback_raises_no_request_exception
  (ipn_data : pydict) (w : World) (st : PyState) (e : exn) :
  fst (verify_callback ipn_data w st) = Raise e ->
  is_RequestException e = false
  /\ log (snd (verify_callback ipn_data w st)) = log st.
Proof.
  rewrite verify_callback_run.
  destruct (py_str (dict_get ipn_data "verification_key")) as [t|e1].
  - unfold verify_after_key.
    destruct (match checked_json _ with
              | Ret v => confirmed v | Raise e0 => Raise e0 end) as [b|e0];
      [discriminate|].
    destruct (is_RequestException e0) eqn:He; [discriminate|].
    intros H. injection H as <-. auto.
  - destruct (is_RequestException e1) eqn:He; [discriminate|].
    intros H. injection H as <-. auto.
Qed.

(** The service answers with a JSON list. *)
Lemma verify_callback_list_answer :
  is_RequestException
    (Exn AttributeError "'list' object has no attribute 'get'") = false
  /\ log (snd (verify_callback [("verification_key", PStr "k1")]
                 (world_answering
                    (Ret (response_with 200 "OK" (Json (PList [])))))
                 fresh))
     = log fresh.
Proof.
  apply (verify_callback_raises_no_request_exception
           [("verification_key", PStr "k1")]
           (world_answering (Ret (response_with 200 "OK" (Json (PList [])))))
           fresh).
  reflexivity.
Defined.






(** X19: on an answer that is not an error and whose JSON object holds
    [min_amount] as a JSON float, [get_minimum_payment_amount] returns
    that float unchanged; when the field is [null], [float(None)] raises
    a [TypeError], which is neither caught nor logged (the default 0 only
    replaces an absent field). *)
Theorem get_minimum_payment_amount_number_or_null
  (w : World) (st : PyState) (r : Response) (doc : pydict) :
  http_send w (min_amount_request st) = Ret r ->
  ~ 400 <= status_code r < 600 ->
  content r = Json (PDict doc) ->
  (forall f,
     dict_get_default doc "min_amount" (PInt 0) = PFloat f ->
     get_minimum_payment_amount w st
     = (Ret f, add_sent (min_amount_request st) st))
  /\ (dict_get_default doc "min_amount" (PInt 0) = PNone ->
      exists msg,
        get_minimum_payment_amount w st
        = (Raise (Exn TypeError msg), add_sent (min_amount_request st) st)).
Proof.
  intros Hsend Hst Hbody. apply http_ok_status in Hst.
  rewrite (get_minimum_payment_amount_ok w st r doc Hsend Hst Hbody).
  split.
  - intros f ->. reflexivity.
  - intros ->. eexists. reflexivity.
Qed.

(** The minimum given as the number 5.5, and as [null]. *)
Lemma get_minimum_payment_amount_number_or_null_samples :
  get_minimum_payment_amount
    (world_answering (Ret (ok [("min_amount", PFloat five_and_a_half)])))
    fresh
  = (Ret five_and_a_half, add_sent (min_amount_request fresh) fresh)
  /\ exists msg,
       get_minimum_payment_amount
         (world_answering (Ret (ok [("min_amount", PNone)]))) fresh
       = (Raise (Exn TypeError msg), add_sent (min_amount_request fresh) fresh).
Proof.
  split.
  - apply (proj1 (get_minimum_payment_amount_number_or_null
                    (world_answering
                       (Ret (ok [("min_amount", PFloat five_and_a_half)])))
                    fresh (ok [("min_amount", PFloat five_and_a_half)])
                    [("min_amount", PFloat five_and_a_half)]
                    eq_refl ltac:(simpl; lia) eq_refl)).
    reflexivity.
  - apply (proj2 (get_minimum_payment_amount_number_or_null
                    (world_answering (Ret (ok [("min_amount", PNone)])))
                    fresh (ok [("min_amount", PNone)])
                    [("min_amount", PNone)]
                    eq_refl ltac:(simpl; lia) eq_refl)).
    reflexivity.
Defined.

(** X21: the JSON body of [create_payment] has exactly eight fields, in
    the order of the source; [price_amount] is the amount given, unchanged,
    and [order_description] is [Deposit for user] followed by the user
    id. *)
Theorem create_payment_body_fields
  (price_amount : spec_float) (user_id : string) (w : World) (st : PyState) :
  exists req payload,
    sent (snd (create_payment price_amount user_id w st))
    = (sent st ++ [req])%list
    /\ req_headers req = headers (self st)
    /\ req_params req = []
    /\ req_json req = Some (PDict payload)
    /\ map fst payload
       = ["price_amount"; "price_currency"; "pay_currency"; "order_id";
          "order_description"; "ipn_callback_url"; "success_url";
          "cancel_url"]
    /\ dict_get payload "price_amount" = PFloat price_amount
    /\ dict_get payload "order_description"
       = PStr ("Deposit for user " ++ user_id).
Proof.
  eexists (payment_request st w price_amount user_id), _.
  split; [|repeat split].
  now rewrite create_payment_run, log_and_reraise_sent.
Qed.

(** ** A key that cannot be written *)




